(** * geovista.filters: the meridian remeshing engine

    A shallow embedding of [src/geovista/filters.py] ([remesh] and
    [cast_UnstructuredGrid_to_PolyData]) together with the properties the
    specification states about it.

    Conventions.
    - Longitudes, the meridian and the radius are IEEE binary64 numbers, as
      in numpy: they are primitive floats here, with the kernel's own
      subtraction and comparisons.
    - Data arrays ([point_data], [cell_data]) are finite maps from array
      names to integer arrays.
    - A Python exception is a value of [exn]; code that may raise returns a
      [result].  [remesh] also switches VTK's process-wide warning display,
      which is threaded through as an explicit [World]. *)

From Stdlib Require Import ZArith List Ascii Floats Lia.
From stdpp Require Import base option list gmap strings.

Open Scope Z_scope.

(** ** Exceptions and results *)

Inductive exn : Type :=
| ValueError (msg : string)
| TypeError (msg : string)
| AttributeError (msg : string)
| IndexError (msg : string)
| KeyError (key : string).

Inductive result (A : Type) : Type :=
| Ok (a : A)
| Raise (e : exn).

Arguments Ok {A} a.
Arguments Raise {A} e.

Definition rbind {A B} (r : result A) (k : A -> result B) : result B :=
  match r with
  | Ok a => k a
  | Raise e => Raise e
  end.

(** ** The process-wide VTK state and the monad of [remesh] *)

Record World : Type := mkWorld { GlobalWarningDisplay : bool }.

Definition M (A : Type) : Type := World -> World * result A.

Definition ret {A} (a : A) : M A := fun w => (w, Ok a).

Definition raise {A} (e : exn) : M A := fun w => (w, Raise e).

Definition bind {A B} (c : M A) (k : A -> M B) : M B :=
  fun w =>
    match c w with
    | (w', Ok a) => k a w'
    | (w', Raise e) => (w', Raise e)
    end.

Definition lift {A} (r : result A) : M A := fun w => (w, r).

(** [vtkObject.GlobalWarningDisplayOff()] and [vtkObject.GlobalWarningDisplayOn()]. *)
Definition GlobalWarningDisplayOff : M unit :=
  fun _ => (mkWorld false, Ok tt).

Definition GlobalWarningDisplayOn : M unit :=
  fun _ => (mkWorld true, Ok tt).

Definition when (b : bool) (c : M unit) : M unit :=
  if b then c else ret tt.

Declare Scope py_scope.
Delimit Scope py_scope with py.
Notation "x <- c ;; k" := (bind c (fun x => k))
  (at level 100, c at next level, right associativity) : py_scope.
Notation "c ;;; k" := (bind c (fun _ => k))
  (at level 100, right associativity) : py_scope.

(** ** Meshes *)

Inductive MeshKind : Type := PolyData | UnstructuredGrid | StructuredGrid.

Definition Point : Type := (float * float * float)%type.

Record Mesh : Type := mkMesh {
  kind : MeshKind;
  points : list Point;
  cells : list (list nat);
  point_data : gmap string (list Z);
  cell_data : gmap string (list Z);
}.

Definition n_cells (m : Mesh) : nat := length (cells m).
Definition n_points (m : Mesh) : nat := length (points m).

Definition set_point_data (f : gmap string (list Z) -> gmap string (list Z))
    (m : Mesh) : Mesh :=
  mkMesh (kind m) (points m) (cells m) (f (point_data m)) (cell_data m).

Definition set_cell_data (f : gmap string (list Z) -> gmap string (list Z))
    (m : Mesh) : Mesh :=
  mkMesh (kind m) (points m) (cells m) (point_data m) (f (cell_data m)).

Definition set_kind (k : MeshKind) (m : Mesh) : Mesh :=
  mkMesh k (points m) (cells m) (point_data m) (cell_data m).

(** [pv.PolyData()]: no points, no cells, no arrays. *)
Definition empty_PolyData : Mesh := mkMesh PolyData [] [] ∅ ∅.

(** [mesh.point_data[name]] and [mesh[name]] for a point array. *)
Definition point_array (m : Mesh) (name : string) : result (list Z) :=
  match point_data m !! name with
  | Some arr => Ok arr
  | None => Raise (KeyError name)
  end.

(** ** numpy helpers *)

(** [np.arange(n)]. *)
Definition arange (n : nat) : list Z := Z.of_nat <$> seq 0 n.

(** [a[mask]] for a boolean mask. *)
Fixpoint mask_select {A} (mask : list bool) (l : list A) : list A :=
  match mask, l with
  | b :: mask', x :: l' =>
      if b then x :: mask_select mask' l' else mask_select mask' l'
  | _, _ => []
  end.

(** [np.asarray(a, dtype=bool)]. *)
Definition as_bool (a : list Z) : list bool := (fun v => negb (v =? 0)) <$> a.

(** [a[mask] = v] for a boolean mask: numpy refuses a mask whose length
    differs from the array's. *)
Definition mask_assign (mask : list bool) (v : Z) (a : list Z) : result (list Z) :=
  if (length mask =? length a)%nat
  then Ok (zip_with (fun (b : bool) x => if b then v else x) mask a)
  else Raise (IndexError "boolean index did not match indexed array").

(** [np.where(a != v)[0]]: the indices whose entry differs from [v]. *)
Fixpoint where_ne_from (i : nat) (a : list Z) (v : Z) : list nat :=
  match a with
  | [] => []
  | x :: a' =>
      if x =? v then where_ne_from (S i) a' v else i :: where_ne_from (S i) a' v
  end.

Definition where_ne (a : list Z) (v : Z) : list nat := where_ne_from 0 a v.

(** [a[idx] = v] for an integer index array produced by [np.where]. *)
Definition index_assign (idx : list nat) (v : Z) (a : list Z) : list Z :=
  foldl (fun acc i => <[i := v]> acc) a idx.

(** Elementwise comparisons of a float array with a scalar, and the
    elementwise boolean operators [&], [|] and [~]. *)
Definition np_lt (a : list float) (x : float) : list bool :=
  (fun d => PrimFloat.ltb d x) <$> a.

Definition np_gt (a : list float) (x : float) : list bool :=
  (fun d => PrimFloat.ltb x d) <$> a.

Definition np_and (a b : list bool) : list bool := zip_with andb a b.
Definition np_or (a b : list bool) : list bool := zip_with orb a b.
Definition np_invert (a : list bool) : list bool := negb <$> a.

(** [a - x] for a float array and a scalar. *)
Definition np_sub (a : list float) (x : float) : list float :=
  (fun d => PrimFloat.sub d x) <$> a.

(** ** Python values reaching [cast_UnstructuredGrid_to_PolyData]

    The function's argument is unchecked on entry, so besides data sets the
    model keeps a few other values a caller can pass. *)

Inductive PyObj : Type :=
| PyDataSet (m : Mesh)
| PyStr (s : string)
| PyInt (z : Z)
| PyNone.

Inductive PyClass : Type :=
| ClsDataSet (k : MeshKind)
| ClsStr
| ClsInt
| ClsNoneType.

(** [type(obj)]: the class object, not its printed name. *)
Definition type (o : PyObj) : PyClass :=
  match o with
  | PyDataSet m => ClsDataSet (kind m)
  | PyStr _ => ClsStr
  | PyInt _ => ClsInt
  | PyNone => ClsNoneType
  end.

Definition class_name (c : PyClass) : string :=
  match c with
  | ClsDataSet PolyData => "PolyData"
  | ClsDataSet UnstructuredGrid => "UnstructuredGrid"
  | ClsDataSet StructuredGrid => "StructuredGrid"
  | ClsStr => "str"
  | ClsInt => "int"
  | ClsNoneType => "NoneType"
  end.

(** [isinstance(mesh, pv.UnstructuredGrid)], with the grid when it holds. *)
Definition isinstance_UnstructuredGrid (o : PyObj) : option Mesh :=
  match o with
  | PyDataSet m =>
      match kind m with UnstructuredGrid => Some m | _ => None end
  | _ => None
  end.

(** [s.split()] with the default separator: the maximal runs of characters
    other than the blank. *)
Fixpoint split_blank_aux (cur : string) (s : string) : list string :=
  match s with
  | EmptyString =>
      match cur with EmptyString => [] | _ => [String.rev cur] end
  | String c s' =>
      if Ascii.eqb c " "%char
      then match cur with
           | EmptyString => split_blank_aux EmptyString s'
           | _ => String.rev cur :: split_blank_aux EmptyString s'
           end
      else split_blank_aux (String c cur) s'
  end.

Definition split_blank (s : string) : list string := split_blank_aux EmptyString s.

(** [cls.split(arg)]: attribute lookup on the class object and the call.
    Of the classes above only [str] has a [split]; looked up on the class
    it is the plain function, so its one argument is the string being split
    (as in [arg.split()]).  Every other class has no such attribute. *)
Definition class_split (c : PyClass) (arg : string) : result (list string) :=
  match c with
  | ClsStr => Ok (split_blank arg)
  | _ =>
      Raise (AttributeError
               ("type object '" +:+ class_name c +:+ "' has no attribute 'split'"))
  end.

(** [l[i]] on a Python list. *)
Definition list_item (l : list string) (i : nat) : result string :=
  match l !! i with
  | Some x => Ok x
  | None => Raise (IndexError "list index out of range")
  end.

(** [s[:-1]]. *)
Definition drop_last (s : string) : string :=
  String.substring 0 (String.length s - 1) s.

(** ** VTK filters with a fixed meaning on surface meshes *)

(** Helper arrays that VTK's extraction adds to its output. *)
Definition VTK_CELL_IDS : string := "vtkOriginalCellIds".
Definition VTK_POINT_IDS : string := "vtkOriginalPointIds".

(** vtkIntersectionPolyDataFilter intersection point array name. *)
Definition VTK_BOUNDARY_MASK : string := "BoundaryPoints".

Definition cell_uses (p : nat) (c : list nat) : bool := existsb (Nat.eqb p) c.

Definition used_points (n : nat) (sel : list (list nat)) : list bool :=
  (fun p => existsb (cell_uses p) sel) <$> seq 0 n.

Fixpoint count_true (l : list bool) : nat :=
  match l with
  | [] => 0%nat
  | b :: l' => if b then S (count_true l') else count_true l'
  end.

Definition new_index (used : list bool) (p : nat) : nat := count_true (take p used).

(** [mesh.extract_cells(mask)]: the cells selected by the mask and the
    points they use, re-indexed, as an unstructured grid; every data array
    is carried over, restricted to what was kept, and the original indices
    are recorded under VTK's helper names. *)
Definition extract_cells (m : Mesh) (mask : list bool) : Mesh :=
  let sel := mask_select mask (cells m) in
  let used := used_points (n_points m) sel in
  mkMesh UnstructuredGrid
    (mask_select used (points m))
    (map (map (new_index used)) sel)
    (<[VTK_POINT_IDS := mask_select used (arange (n_points m))]>
       (mask_select used <$> point_data m))
    (<[VTK_CELL_IDS := mask_select mask (arange (n_cells m))]>
       (mask_select mask <$> cell_data m)).

(** [vtkGeometryFilter] on a grid whose cells are polygonal faces: the
    faces, points and arrays pass through and the output is a PolyData. *)
Definition vtkGeometryFilter (m : Mesh) : Mesh := set_kind PolyData m.

(** ** Collaborators

    [remesh] imports its reserved names, sentinels and geometry utilities
    from [geovista.common] and delegates geometry to pyvista and VTK.  None
    of these is part of the sources at hand, so they are an interface: the
    engine is verified for every implementation of it. *)

Class Collaborators : Type := {
  (** Reserved array names and seam sentinels of [geovista.common]. *)
  GV_CELL_IDS : string;
  GV_POINT_IDS : string;
  GV_REMESH_POINT_IDS : string;
  REMESH_JOIN : Z;
  REMESH_SEAM : Z;
  (** [wrap(meridian)[0]]: the angle brought into the base period. *)
  wrap : float -> float;
  (** [calculate_radius(mesh)]. *)
  calculate_radius : Mesh -> float;
  (** [triangulated(mesh)]. *)
  triangulated : Mesh -> bool;
  (** Column 0 of one row of [to_xy0(mesh)]: the longitude of a point. *)
  xy0_lon : Mesh -> Point -> float;
  (** [sanitize_data(remeshed, west, east)], in place on the three meshes. *)
  sanitize_data : Mesh * Mesh * Mesh -> Mesh * Mesh * Mesh;
  (** [mesh.triangulate()]. *)
  triangulate : Mesh -> Mesh;
  (** [mesh.clean()]. *)
  clean : Mesh -> Mesh;
  (** [pv.Plane(center, i_resolution, j_resolution, i_size, j_size, direction)]. *)
  Plane : Point -> Z -> Z -> float -> float -> Point -> Mesh;
  (** [mesh.rotate_z(angle)]. *)
  rotate_z : float -> Mesh -> Mesh;
  (** The centre VTK computes for a cell, from the cell's points. *)
  cell_center : list Point -> Point;
  (** Output port 1 of [vtkIntersectionPolyDataFilter] on inputs 0 and 1 with
      the intersection point array computed, the first output split and the
      second left whole; the flag is [SetCheckMesh]. *)
  vtkIntersectionPolyDataFilter : Mesh -> Mesh -> bool -> Mesh;
}.

(** Marker for remesh filter eastern cell boundary point. *)
Definition REMESH_SEAM_EAST `{Collaborators} : Z := REMESH_SEAM - 1.

Section Filters.
Context `{Collab : Collaborators}.

(** Modelled from the spec: [to_xy0] of [geovista.common] is absent from the
    sources; the spec has it as a per-point projection to longitude and
    latitude, so it yields one row per point of the mesh.  This is
    [to_xy0(m)[:, 0]], the column of longitudes. *)
Definition to_xy0_lons (m : Mesh) : list float := xy0_lon m <$> points m.

(** [mesh.cell_centers()]: one point per cell, each with its vertex cell;
    the cell arrays become the arrays of the points. *)
Definition cell_centers (m : Mesh) : Mesh :=
  mkMesh PolyData
    ((fun c => cell_center (omap (fun i => points m !! i) c)) <$> cells m)
    ((fun i => [i]) <$> seq 0 (n_cells m))
    (cell_data m)
    (cell_data m).

(** *** [cast_UnstructuredGrid_to_PolyData] *)

Definition cast_UnstructuredGrid_to_PolyData (mesh : PyObj) (clean_flag : bool)
    : result Mesh :=
  match isinstance_UnstructuredGrid mesh with
  | None =>
      rbind (class_split (type mesh) " ") (fun parts =>
      rbind (list_item parts 1) (fun part =>
      let dtype := drop_last part in
      let emsg := "Expected a 'pyvista.UnstructuredGrid', got " +:+ dtype +:+ "." in
      Raise (TypeError emsg)))
  | Some grid =>
      let result := vtkGeometryFilter grid in
      Ok (if clean_flag then clean result else result)
  end.

(** *** [remesh] *)

(** Lines 115-119: the provenance arrays are created when absent. *)
Definition tag_cells (poly0 : Mesh) : Mesh :=
  match cell_data poly0 !! GV_CELL_IDS with
  | Some _ => poly0
  | None => set_cell_data (insert GV_CELL_IDS (arange (n_cells poly0))) poly0
  end.

Definition tag_points (poly0 : Mesh) : Mesh :=
  match point_data poly0 !! GV_POINT_IDS with
  | Some _ => poly0
  | None => set_point_data (insert GV_POINT_IDS (arange (n_points poly0))) poly0
  end.

Definition tag (poly0 : Mesh) : Mesh := tag_points (tag_cells poly0).

(** Lines 113-128: the deep copy (a mesh is a value here), the tagging and
    the triangulation of a mesh that is not triangulated yet. *)
Definition prepare (mesh : Mesh) : Mesh :=
  let poly0 := tag mesh in
  if triangulated poly0 then poly0 else triangulate poly0.

(** Lines 130-139: the cutting patch. *)
Definition cutting_surface (radius meridian : float) : Mesh :=
  let poly1 :=
    Plane ((radius / 2)%float, 0%float, 0%float) 1 1
          radius (radius * 2)%float
          (0%float, 1%float, 0%float) in
  triangulate (rotate_z meridian poly1).

(** Lines 176-181: the masks of the split, from the centroid longitudes. *)
Definition lower_mask (delta : list float) : list bool :=
  np_and (np_lt delta 0%float) (np_gt delta (-180)%float).

Definition upper_mask (delta : list float) : list bool :=
  np_gt delta 180%float.

Definition west_mask (delta : list float) : list bool :=
  np_or (lower_mask delta) (upper_mask delta).

Definition east_mask (delta : list float) : list bool :=
  np_invert (west_mask delta).

Definition cell_delta (remeshed : Mesh) (meridian : float) : list float :=
  let centers := cell_centers remeshed in
  let lons := to_xy0_lons centers in
  np_sub lons meridian.

(** [mesh[name][mask] = v] on a point array of the mesh. *)
Definition set_masked (m : Mesh) (name : string) (mask : list bool) (v : Z)
    : result Mesh :=
  rbind (point_array m name) (fun a =>
  rbind (mask_assign mask v a) (fun a' =>
  Ok (set_point_data (insert name a') m))).

(** Lines 203-204 and 210-211: every point of the half whose marker is not
    the seam value becomes a join point. *)
Definition mark_join (half : Mesh) (seam : Z) : result Mesh :=
  rbind (point_array half GV_REMESH_POINT_IDS) (fun a =>
  let join_mask := where_ne a seam in
  Ok (set_point_data (insert GV_REMESH_POINT_IDS (index_assign join_mask REMESH_JOIN a)) half)).

(** Lines 174-214: the split of the intersected mesh into its halves. *)
Definition split (remeshed : Mesh) (meridian : float) (boundary : bool)
    : result (Mesh * Mesh * Mesh) :=
  let delta := cell_delta remeshed meridian in
  let west := west_mask delta in
  let east := east_mask delta in
  rbind (point_array remeshed VTK_BOUNDARY_MASK) (fun bm =>
  let boundary_mask := as_bool bm in
  let remeshed :=
    if negb boundary
    then set_point_data (delete VTK_BOUNDARY_MASK) remeshed
    else remeshed in
  rbind (point_array remeshed GV_POINT_IDS) (fun ids =>
  let remeshed := set_point_data (insert GV_REMESH_POINT_IDS ids) remeshed in
  rbind (set_masked remeshed GV_REMESH_POINT_IDS boundary_mask REMESH_SEAM)
    (fun remeshed =>
  rbind (cast_UnstructuredGrid_to_PolyData
           (PyDataSet (extract_cells remeshed west)) false) (fun remeshed_west =>
  rbind (mark_join remeshed_west REMESH_SEAM) (fun remeshed_west =>
  rbind (set_masked remeshed GV_REMESH_POINT_IDS boundary_mask REMESH_SEAM_EAST)
    (fun remeshed =>
  rbind (cast_UnstructuredGrid_to_PolyData
           (PyDataSet (extract_cells remeshed east)) false) (fun remeshed_east =>
  rbind (mark_join remeshed_east REMESH_SEAM_EAST) (fun remeshed_east =>
  let remeshed := set_point_data (delete GV_REMESH_POINT_IDS) remeshed in
  Ok (sanitize_data (remeshed, remeshed_west, remeshed_east)))))))))).

(** The intersected mesh [remesh] works on (lines 105-161). *)
Definition intersected (mesh : Mesh) (meridian : float) (check : bool) : Mesh :=
  let meridian := wrap meridian in
  let radius := calculate_radius mesh in
  let poly0 := prepare mesh in
  let poly1 := cutting_surface radius meridian in
  vtkIntersectionPolyDataFilter poly0 poly1 check.

Definition remesh (mesh : Mesh) (meridian : float)
    (boundary check warnings : bool) : M (Mesh * Mesh * Mesh) :=
  (when (negb warnings) GlobalWarningDisplayOff ;;;
   if (n_cells mesh =? 0)%nat
   then raise (ValueError "Cannot remesh an empty mesh")
   else
     let remeshed := intersected mesh meridian check in
     when (negb warnings) GlobalWarningDisplayOn ;;;
     if (n_cells remeshed =? 0)%nat
     then ret (remeshed, empty_PolyData, empty_PolyData)
     else lift (split remeshed (wrap meridian) boundary))%py.

End Filters.

(** ** A laboratory implementation of the collaborators

    Used to run the engine on concrete meshes.  Floating-point geometry that
    needs trigonometry is tabulated where the examples need it: longitudes
    are exact on the eight compass directions, and the intersection filter
    knows the one triangle the examples cut. *)

Module Lab.

Open Scope float_scope.

Definition feq (a b : float) : bool := PrimFloat.eqb a b.

Definition point_eqb (p q : Point) : bool :=
  let '(px, py, pz) := p in
  let '(qx, qy, qz) := q in
  feq px qx && feq py qy && feq pz qz.

Fixpoint points_eqb (ps qs : list Point) : bool :=
  match ps, qs with
  | [], [] => true
  | p :: ps', q :: qs' => point_eqb p q && points_eqb ps' qs'
  | _, _ => false
  end.

(** One period of [wrap]: enough for angles in [-540, 540). *)
Definition wrap1 (x : float) : float :=
  if PrimFloat.ltb x (-180) then x + 360
  else if PrimFloat.leb 180 x then x - 360
  else x.

Definition norm (p : Point) : float :=
  let '(x, y, z) := p in PrimFloat.sqrt (x * x + y * y + z * z).

Definition fmax (a b : float) : float := if PrimFloat.ltb a b then b else a.

Definition radius_of (m : Mesh) : float := foldr (fun p r => fmax (norm p) r) 0 (points m).

Definition all_triangles (m : Mesh) : bool :=
  forallb (fun c => (length c =? 3)%nat) (cells m).

(** Degrees of [arctan2(y, x)] on the compass directions; other directions
    are not tabulated and read 0. *)
Definition compass_lon (p : Point) : float :=
  let '(x, y, _) := p in
  if feq y 0 then (if PrimFloat.ltb x 0 then (-180) else 0)
  else if feq x 0 then (if PrimFloat.ltb y 0 then (-90) else 90)
  else if feq x y then (if PrimFloat.ltb 0 x then 45 else (-135))
  else if feq x (- y) then (if PrimFloat.ltb 0 x then (-45) else 135)
  else 0.

(** The purge of VTK's helper index arrays. *)
Definition purge (m : Mesh) : Mesh :=
  set_point_data (delete VTK_POINT_IDS) (set_cell_data (delete VTK_CELL_IDS) m).

Definition purge3 (t : Mesh * Mesh * Mesh) : Mesh * Mesh * Mesh :=
  let '(r, w, e) := t in (purge r, purge w, purge e).

(** Fan triangulation of every polygon, cell arrays repeated per triangle. *)
Definition fan (c : list nat) : list (list nat) :=
  match c with
  | a :: b :: rest => zip_with (fun x y => [a; x; y]) (b :: rest) rest
  | _ => []
  end.

Definition fan_array (cs : list (list nat)) (a : list Z) : list Z :=
  mjoin (zip_with (fun c v => replicate (length (fan c)) v) cs a).

Definition fan_triangulate (m : Mesh) : Mesh :=
  mkMesh (kind m) (points m) (mjoin (fan <$> cells m))
         (point_data m) (fan_array (cells m) <$> cell_data m).

(** A rectangle with normal (0, 1, 0): it lies in the plane through the
    centre with constant y, [i_size] wide along x and [j_size] along z. *)
Definition plane_y (center : Point) (i_resolution j_resolution : Z)
    (i_size j_size : float) (direction : Point) : Mesh :=
  let '(cx, cy, cz) := center in
  let hi := i_size / 2 in
  let hj := j_size / 2 in
  mkMesh PolyData
    [(cx - hi, cy, cz - hj); (cx + hi, cy, cz - hj);
     (cx + hi, cy, cz + hj); (cx - hi, cy, cz + hj)]
    [[0; 1; 2; 3]%nat] ∅ ∅.

(** Rotation about z, exact for the quarter turns; other angles are not
    tabulated and leave the mesh as it is. *)
Definition quarter_turn (angle : float) (m : Mesh) : Mesh :=
  let turn (p : Point) : Point :=
    let '(x, y, z) := p in
    if feq angle 90 then (- y, x, z)
    else if feq angle (-90) then (y, - x, z)
    else if feq angle 180 || feq angle (-180) then (- x, - y, z)
    else p in
  mkMesh (kind m) (turn <$> points m) (cells m) (point_data m) (cell_data m).

Definition of_nat (n : nat) : float := PrimFloat.of_uint63 (Uint63.of_Z (Z.of_nat n)).

Definition mean (ps : list Point) : Point :=
  let n := of_nat (length ps) in
  let sx := foldl (fun s p => s + p.1.1) 0 ps in
  let sy := foldl (fun s p => s + p.1.2) 0 ps in
  let sz := foldl (fun s p => s + p.2) 0 ps in
  (sx / n, sy / n, sz / n).

(** The example triangle: it crosses the half-plane of meridian 0 along the
    segment from (1, 0, 0) to its apex (0, 0, 1). *)
Definition crossing_points : list Point :=
  [(1, -2, 0); (1, 2, 0); (0, 0, 1)].

Definition crossing : Mesh :=
  mkMesh PolyData crossing_points [[0; 1; 2]%nat] ∅ ∅.

(** The same triangle moved to y = 3: meridian 0 misses it. *)
Definition missed : Mesh :=
  mkMesh PolyData [(1, 1, 0); (1, 5, 0); (0, 3, 1)] [[0; 1; 2]%nat] ∅ ∅.

(** A triangle collapsed onto the origin: its radius is 0. *)
Definition collapsed : Mesh :=
  mkMesh PolyData [(0, 0, 0); (0, 0, 0); (0, 0, 0)] [[0; 1; 2]%nat] ∅ ∅.

(** What the intersection filter returns for [crossing] cut at meridian 0:
    the point (1, 0, 0) is inserted, the triangle is split in two along the
    seam, both fragments inherit the cell arrays of the triangle they come
    from, the inserted point takes the point arrays of the first vertex, and
    the two points on the seam are flagged. *)
Definition crossing_split (poly0 : Mesh) : Mesh :=
  mkMesh PolyData
    (points poly0 ++ [(1, 0, 0)])
    [[0; 3; 2]%nat; [3; 1; 2]%nat]
    (<[VTK_BOUNDARY_MASK := [0; 0; 1; 1]%Z]>
       ((fun a => a ++ take 1 a) <$> point_data poly0))
    ((fun a => a ++ a) <$> cell_data poly0).

(** The laboratory filter cuts at meridian 0 only: it knows the split of
    the example triangle, and no other mesh of the examples meets the
    patch. *)
Definition intersection (poly0 poly1 : Mesh) (check : bool) : Mesh :=
  if points_eqb (points poly0) crossing_points
  then crossing_split poly0
  else empty_PolyData.

Definition collaborators : Collaborators := {|
  GV_CELL_IDS := "gvOriginalCellIds";
  GV_POINT_IDS := "gvOriginalPointIds";
  GV_REMESH_POINT_IDS := "gvRemeshPointIds";
  REMESH_JOIN := (-3)%Z;
  REMESH_SEAM := (-1)%Z;
  wrap := wrap1;
  calculate_radius := radius_of;
  triangulated := all_triangles;
  xy0_lon := fun _ p => wrap1 (compass_lon p);
  sanitize_data := purge3;
  triangulate := fan_triangulate;
  clean := fun m => m;
  Plane := plane_y;
  rotate_z := quarter_turn;
  cell_center := mean;
  vtkIntersectionPolyDataFilter := intersection;
|}.

Definition world0 : World := mkWorld true.

End Lab.


(** ** What the properties assume of [sanitize_data]

    [sanitize_data] is a collaborator; the statements below name what a
    property needs from it. *)

Section Contracts.
Context `{Collab : Collaborators}.

Definition sanitize_keeps_cells : Prop :=
  forall t : Mesh * Mesh * Mesh,
    cells (sanitize_data t).1.1 = cells t.1.1 /\
    cells (sanitize_data t).1.2 = cells t.1.2 /\
    cells (sanitize_data t).2 = cells t.2.

Definition sanitize_keeps_point_array (name : string) : Prop :=
  forall t : Mesh * Mesh * Mesh,
    point_data (sanitize_data t).1.1 !! name = point_data t.1.1 !! name /\
    point_data (sanitize_data t).1.2 !! name = point_data t.1.2 !! name /\
    point_data (sanitize_data t).2 !! name = point_data t.2 !! name.

Definition sanitize_keeps_cell_array (name : string) : Prop :=
  forall t : Mesh * Mesh * Mesh,
    cell_data (sanitize_data t).1.1 !! name = cell_data t.1.1 !! name /\
    cell_data (sanitize_data t).1.2 !! name = cell_data t.1.2 !! name /\
    cell_data (sanitize_data t).2 !! name = cell_data t.2 !! name.

End Contracts.

(** The rule of lines 178-180 for one cell. *)
Definition classify_west (d : float) : bool :=
  (PrimFloat.ltb d 0%float && PrimFloat.ltb (-180)%float d)
  || PrimFloat.ltb 180%float d.

(** The set (-180, 0) ∪ (180, 360). *)
Definition in_west_range (d : float) : Prop :=
  (PrimFloat.ltb (-180)%float d = true /\ PrimFloat.ltb d 0%float = true) \/
  (PrimFloat.ltb 180%float d = true /\ PrimFloat.ltb d 360%float = true).

(** ** geovista.pantry

    The sample loaders of [src/geovista/pantry.py].  A Python [str] is a
    [string] here; the two agree on ASCII text, which is what the names in
    the sample files are, and the properties are stated for ASCII text. *)

Module Pantry.

(** [c.upper()] and [c.lower()] on one ASCII character. *)
Definition is_lower (c : ascii) : bool :=
  (97 <=? nat_of_ascii c)%nat && (nat_of_ascii c <=? 122)%nat.

Definition is_upper (c : ascii) : bool :=
  (65 <=? nat_of_ascii c)%nat && (nat_of_ascii c <=? 90)%nat.

Definition upper (c : ascii) : ascii :=
  if is_lower c then ascii_of_nat (nat_of_ascii c - 32) else c.

Definition lower (c : ascii) : ascii :=
  if is_upper c then ascii_of_nat (nat_of_ascii c + 32) else c.

(** [s.isascii()]. *)
Fixpoint isascii (s : string) : bool :=
  match s with
  | EmptyString => true
  | String c s' => (nat_of_ascii c <? 128)%nat && isascii s'
  end.

Fixpoint str_map (f : ascii -> ascii) (s : string) : string :=
  match s with
  | EmptyString => EmptyString
  | String c s' => String (f c) (str_map f s')
  end.

(** [s.replace(old, new)] for one-character [old] and [new]. *)
Definition replace (old new : ascii) (s : string) : string :=
  str_map (fun c => if Ascii.eqb c old then new else c) s.

(** [s.split(sep)] for a one-character separator: the pieces between the
    separators, empty pieces included; the empty string gives one empty
    piece. *)
Fixpoint str_split (sep : ascii) (s : string) : list string :=
  match s with
  | EmptyString => [EmptyString]
  | String c s' =>
      if Ascii.eqb c sep then EmptyString :: str_split sep s'
      else match str_split sep s' with
           | w :: ws => String c w :: ws
           | [] => [String c EmptyString]
           end
  end.

(** [word.capitalize()]: the first character upper-cased, the others
    lower-cased. *)
Definition capitalize (word : string) : string :=
  match word with
  | EmptyString => EmptyString
  | String c rest => String (upper c) (str_map lower rest)
  end.

(** [sep.join(words)]. *)
Fixpoint join (sep : string) (words : list string) : string :=
  match words with
  | [] => EmptyString
  | w :: ws =>
      match ws with
      | [] => w
      | _ :: _ => (w ++ sep ++ join sep ws)%string
      end
  end.

(** Lines 58-76. *)
Definition capitalise (title : string) : string :=
  let title := replace "_" " " title in
  let title := str_split " " title in
  let title := join " " (map capitalize title) in
  title.

(** One pass over the text that does what [capitalise] does after the
    replacement: [start] tells whether the next character begins a word. *)
Fixpoint scan (start : bool) (s : string) : string :=
  match s with
  | EmptyString => EmptyString
  | String c s' =>
      if Ascii.eqb c " " then String " " (scan true s')
      else String (if start then upper c else lower c) (scan false s')
  end.

(** *** netCDF data sets, as far as the loaders read them *)

Inductive error : Type :=
| KeyError (key : string)
| AttributeError (name : string)
| IndexError
| ZeroDivisionError
| ValueError (msg : string).

Inductive outcome (A : Type) : Type :=
| Loaded (a : A)
| Failed (e : error).

Arguments Loaded {A} a.
Arguments Failed {A} e.

Definition andthen {A B} (r : outcome A) (k : A -> outcome B) : outcome B :=
  match r with
  | Loaded a => k a
  | Failed e => Failed e
  end.

(** A numpy array: its shape and its elements in row-major order. *)
Record NdArray : Type := mkNd { shape : list nat; flat : list float }.

Inductive Attr : Type :=
| AttrStr (s : string)
| AttrNum (x : float).

Record NcVariable : Type := mkVar {
  value : NdArray;
  attrs : gmap string Attr;
}.

Record Dataset : Type := mkDataset {
  variables : gmap string NcVariable;
  dimensions : gmap string nat;
}.

(** [ds.variables[key]]. *)
Definition variable (ds : Dataset) (key : string) : outcome NcVariable :=
  match variables ds !! key with
  | Some v => Loaded v
  | None => Failed (KeyError key)
  end.

(** [ds.dimensions[key].size]. *)
Definition dimension_size (ds : Dataset) (key : string) : outcome nat :=
  match dimensions ds !! key with
  | Some n => Loaded n
  | None => Failed (KeyError key)
  end.

(** [var.name], an attribute of a variable. *)
Definition getattr (v : NcVariable) (name : string) : outcome Attr :=
  match attrs v !! name with
  | Some a => Loaded a
  | None => Failed (AttributeError name)
  end.

(** [capitalise(attr)]: a number has no [replace]. *)
Definition capitalise_attr (a : Attr) : outcome string :=
  match a with
  | AttrStr s => Loaded (capitalise s)
  | AttrNum _ => Failed (AttributeError "replace")
  end.

(** [a[idx]] with one integer: the sub-array at position [idx] along the
    first axis, a negative [idx] counting from the end. *)
Definition getitem (a : NdArray) (idx : Z) : outcome NdArray :=
  match shape a with
  | [] => Failed IndexError
  | n :: rest =>
      let i := if idx <? 0 then idx + Z.of_nat n else idx in
      if (0 <=? i) && (i <? Z.of_nat n)
      then
        let size := foldr Nat.mul 1%nat rest in
        Loaded (mkNd rest (take size (drop (Z.to_nat i * size) (flat a))))
      else Failed IndexError
  end.

(** [0 if step is None else (step % steps)] (lines 113 and 443). *)
Definition timeseries_index (step : option Z) (steps : nat) : outcome Z :=
  match step with
  | None => Loaded 0
  | Some step =>
      if (steps =? 0)%nat then Failed ZeroDivisionError
      else Loaded (step mod Z.of_nat steps)
  end.

Inductive Connectivity : Type :=
| ConnShape (s : list nat)
| ConnArray (a : NdArray).

Record SampleUnstructuredXY : Type := mkSampleUnstructuredXY {
  lons : NdArray;
  lats : NdArray;
  connectivity : Connectivity;
  data : option NdArray;
  face : option NdArray;
  node : option NdArray;
  start_index : option Z;
  name : option string;
  units : option Attr;
  steps : option nat;
  ndim : Z;
}.

(** Lines 79-119.  [fetch] is [nc.Dataset(CACHE.fetch(fname))]: the cache
    and the file system stand behind it. *)
Definition fesom (fetch : string -> outcome Dataset) (step : option Z)
    : outcome SampleUnstructuredXY :=
  let fname := "tos_Omon_AWI-ESM-1-1-LR_historical_r1i1p1f1_gn_185001-185012.nc" in
  andthen (fetch fname) (fun ds =>
  andthen (variable ds "lon_bnds") (fun lon_bnds =>
  let lons := value lon_bnds in
  andthen (variable ds "lat_bnds") (fun lat_bnds =>
  let lats := value lat_bnds in
  andthen (variable ds "tos") (fun data =>
  andthen (getattr data "standard_name") (fun standard_name =>
  andthen (capitalise_attr standard_name) (fun name =>
  andthen (getattr data "units") (fun units =>
  andthen (dimension_size ds "time") (fun steps =>
  andthen (timeseries_index step steps) (fun idx =>
  andthen (getitem (value data) idx) (fun data_idx =>
  Loaded (mkSampleUnstructuredXY lons lats (ConnShape (shape lons))
            (Some data_idx) None None None (Some name) (Some units)
            (Some steps) 2))))))))))).

(** *** The cells of the spherical multi-cell grid (lines 429-439) *)

(** An arithmetic operator on two one-dimensional arrays: elementwise on
    equal lengths, an array of one element stretched to the other, and
    refused otherwise. *)
Definition broadcast (f : float -> float -> float) (a b : list float)
    : outcome (list float) :=
  if (length a =? length b)%nat then Loaded (zip_with f a b)
  else
    match a, b with
    | [x], _ => Loaded (f x <$> b)
    | _, [y] => Loaded ((fun x => f x y) <$> a)
    | _, _ => Failed (ValueError "operands could not be broadcast together")
    end.

(** [np.hstack] of columns ([reshape(-1, 1)] of one-dimensional arrays):
    row [i] holds entry [i] of every column; the columns must agree in
    length. *)
Fixpoint hstack (columns : list (list float)) : outcome (list (list float)) :=
  match columns with
  | [] => Failed (ValueError "need at least one array to concatenate")
  | [c] => Loaded ((fun x => [x]) <$> c)
  | c :: cs =>
      andthen (hstack cs) (fun rows =>
      if (length c =? length rows)%nat
      then Loaded (zip_with cons c rows)
      else Failed (ValueError "all the input array dimensions must match"))
  end.

Definition smc_cells (cc_lons cc_lats cx cy : list float)
    (base_lon_size base_lat_size : float)
    : outcome (list (list float) * list (list float)) :=
  let dlon := (fun c => PrimFloat.mul c base_lon_size) <$> cx in
  let dlat := (fun c => PrimFloat.mul c base_lat_size) <$> cy in
  let fac := 0.5%float in
  let half (d : list float) := PrimFloat.mul fac <$> d in
  andthen (broadcast PrimFloat.sub cc_lons (half dlon)) (fun x1 =>
  andthen (broadcast PrimFloat.add cc_lons (half dlon)) (fun x2 =>
  andthen (broadcast PrimFloat.sub cc_lats (half dlat)) (fun y1 =>
  andthen (broadcast PrimFloat.add cc_lats (half dlat)) (fun y2 =>
  andthen (hstack [x1; x2; x2; x1]) (fun lons =>
  andthen (hstack [y1; y1; y2; y2]) (fun lats =>
  Loaded (lons, lats))))))).

End Pantry.

(** A small data set in the layout [fesom] reads: three cells with three
    bounds each, and two time steps of the payload. *)
Module PantryLab.

Definition lon_bnds : Pantry.NcVariable :=
  Pantry.mkVar
    (Pantry.mkNd [3; 3]%nat
       [0; 1; 0; 1; 2; 1; 2; 3; 2]%float)
    ∅.

Definition lat_bnds : Pantry.NcVariable :=
  Pantry.mkVar
    (Pantry.mkNd [3; 3]%nat
       [0; 0; 1; 0; 0; 1; 0; 0; 1]%float)
    ∅.

Definition tos : Pantry.NcVariable :=
  Pantry.mkVar
    (Pantry.mkNd [2; 3]%nat [10; 11; 12; 20; 21; 22]%float)
    (<["standard_name" := Pantry.AttrStr "sea_surface_temperature"]>
       (<["units" := Pantry.AttrStr "degC"]> ∅)).

Definition dataset (time : nat) : Pantry.Dataset :=
  Pantry.mkDataset
    (<["lon_bnds" := lon_bnds]>
       (<["lat_bnds" := lat_bnds]> (<["tos" := tos]> ∅)))
    (<["time" := time]> ∅).

Definition fetch (time : nat) (fname : string) : Pantry.outcome Pantry.Dataset :=
  Pantry.Loaded (dataset time).

End PantryLab.

(** What the marker property needs of [sanitize_data] besides the arrays:
    it moves no point. *)
Definition sanitize_keeps_points `{Collaborators} : Prop :=
  forall t : Mesh * Mesh * Mesh,
    points (sanitize_data t).1.1 = points t.1.1 /\
    points (sanitize_data t).1.2 = points t.1.2 /\
    points (sanitize_data t).2 = points t.2.

(** ** [remesh] with collaborators that may raise

    Lines 105-161 call into [geovista.common], pyvista and VTK, and each of
    these calls may raise.  Here they return a [result], and [remesh] is
    embedded once more with every call in program order, so that what holds
    of its errors and of the state it leaves does not rest on the
    collaborators returning. *)

Module Strict.

Class Geometry : Type := {
  wrap : float -> result float;
  calculate_radius : Mesh -> result float;
  triangulated : Mesh -> result bool;
  triangulate : Mesh -> result Mesh;
  Plane : Point -> Z -> Z -> float -> float -> Point -> result Mesh;
  rotate_z : float -> Mesh -> result Mesh;
  vtkIntersectionPolyDataFilter : Mesh -> Mesh -> bool -> result Mesh;
}.

Section Remesh.
Context `{Collab : Collaborators} `{Geo : Geometry}.

(** Lines 113-128. *)
Definition prepare (mesh : Mesh) : result Mesh :=
  let poly0 := tag mesh in
  rbind (triangulated poly0) (fun is_triangulated =>
  if is_triangulated then Ok poly0 else triangulate poly0).

(** The call of [pv.Plane] on line 130, with its arguments. *)
Definition plane_call (radius : float) : result Mesh :=
  Plane ((radius / 2)%float, 0%float, 0%float) 1 1
        radius (radius * 2)%float
        (0%float, 1%float, 0%float).

(** Lines 130-139: the cutting patch. *)
Definition cutting_surface (radius meridian : float) : result Mesh :=
  rbind (plane_call radius) (fun poly1 =>
  rbind (rotate_z meridian poly1) (fun poly1 =>
  triangulate poly1)).

(** Lines 105-161: the wrapped meridian and the intersected mesh. *)
Definition intersected (mesh : Mesh) (meridian : float) (check : bool)
    : result (float * Mesh) :=
  rbind (wrap meridian) (fun meridian =>
  rbind (calculate_radius mesh) (fun radius =>
  rbind (prepare mesh) (fun poly0 =>
  rbind (cutting_surface radius meridian) (fun poly1 =>
  rbind (vtkIntersectionPolyDataFilter poly0 poly1 check) (fun remeshed =>
  Ok (meridian, remeshed)))))).

Definition remesh (mesh : Mesh) (meridian : float)
    (boundary check warnings : bool) : M (Mesh * Mesh * Mesh) :=
  (when (negb warnings) GlobalWarningDisplayOff ;;;
   if (n_cells mesh =? 0)%nat
   then raise (ValueError "Cannot remesh an empty mesh")
   else
     cut <- lift (intersected mesh meridian check) ;;
     when (negb warnings) GlobalWarningDisplayOn ;;;
     if (n_cells cut.2 =? 0)%nat
     then ret (cut.2, empty_PolyData, empty_PolyData)
     else lift (split cut.2 cut.1 boundary))%py.

End Remesh.

End Strict.

(** Collaborators that return are a special case of collaborators that may
    raise. *)
Definition returning (C : Collaborators) : Strict.Geometry := {|
  Strict.wrap := fun x => Ok (wrap x);
  Strict.calculate_radius := fun m => Ok (calculate_radius m);
  Strict.triangulated := fun m => Ok (triangulated m);
  Strict.triangulate := fun m => Ok (triangulate m);
  Strict.Plane := fun c i j si sj d => Ok (Plane c i j si sj d);
  Strict.rotate_z := fun a m => Ok (rotate_z a m);
  Strict.vtkIntersectionPolyDataFilter :=
    fun p0 p1 check => Ok (vtkIntersectionPolyDataFilter p0 p1 check);
|}.

(** The laboratory with a rotation that refuses an angle that is not a
    number, as the rotation of a mesh does. *)
Definition lab_geometry : Strict.Geometry := {|
  Strict.wrap := fun x => Ok (Lab.wrap1 x);
  Strict.calculate_radius := fun m => Ok (Lab.radius_of m);
  Strict.triangulated := fun m => Ok (Lab.all_triangles m);
  Strict.triangulate := fun m => Ok (Lab.fan_triangulate m);
  Strict.Plane := fun c i j si sj d => Ok (Lab.plane_y c i j si sj d);
  Strict.rotate_z := fun a m =>
    if PrimFloat.is_nan a
    then Raise (ValueError "angle is not a number")
    else Ok (Lab.quarter_turn a m);
  Strict.vtkIntersectionPolyDataFilter :=
    fun p0 p1 check => Ok (Lab.intersection p0 p1 check);
|}.

(** * Properties *)

(** ** Lists, masks and index assignment *)

Lemma zip_with_fmap_same {A B C D} (f : B -> C -> D) (g : A -> B) (h : A -> C)
    (l : list A) :
  zip_with f (g <$> l) (h <$> l) = (fun x => f (g x) (h x)) <$> l.
Proof. induction l as [|x l IH]; simpl; [reflexivity | f_equal; exact IH]. Qed.

Lemma mask_select_length_le {A} (mask : list bool) (l : list A) :
  (length (mask_select mask l) <= length l)%nat.
Proof.
  revert l; induction mask as [|b mask IH]; intros [|x l]; simpl; try lia.
  specialize (IH l). destruct b; simpl; lia.
Qed.

Lemma mask_select_complement_length {A} (mask : list bool) (l : list A) :
  length mask = length l ->
  (length (mask_select mask l) + length (mask_select (negb <$> mask) l))%nat
  = length l.
Proof.
  revert l; induction mask as [|b mask IH]; intros [|x l] Hlen;
    simpl in *; try lia.
  injection Hlen as Hlen. specialize (IH l Hlen).
  destruct b; csimpl; lia.
Qed.

Lemma mask_select_complement_perm {A} (mask : list bool) (l : list A) :
  length mask = length l ->
  mask_select mask l ++ mask_select (negb <$> mask) l ≡ₚ l.
Proof.
  revert l; induction mask as [|b mask IH]; intros [|x l] Hlen;
    simpl in *; try discriminate; [constructor|].
  injection Hlen as Hlen. specialize (IH l Hlen).
  destruct b; csimpl.
  - by constructor.
  - rewrite <- Permutation_middle. by constructor.
Qed.

Lemma index_assign_where_ne_from (j s : Z) (suf pre : list Z) :
  index_assign (where_ne_from (length pre) suf s) j (pre ++ suf)
  = pre ++ ((fun x => if x =? s then x else j) <$> suf).
Proof.
  unfold index_assign.
  revert pre; induction suf as [|x suf IH]; intros pre; simpl; [reflexivity|].
  destruct (x =? s) eqn:E.
  - replace (pre ++ x :: suf) with ((pre ++ [x]) ++ suf) by (by rewrite <- app_assoc).
    replace (S (length pre)) with (length (pre ++ [x])) by (rewrite length_app; simpl; lia).
    rewrite IH. by rewrite <- app_assoc.
  - simpl. rewrite insert_app_r_alt by lia.
    replace (length pre - length pre)%nat with 0%nat by lia. simpl.
    replace (pre ++ j :: suf) with ((pre ++ [j]) ++ suf) by (by rewrite <- app_assoc).
    replace (S (length pre)) with (length (pre ++ [j])) by (rewrite length_app; simpl; lia).
    rewrite IH. by rewrite <- app_assoc.
Qed.

Lemma index_assign_where_ne (j s : Z) (a : list Z) :
  index_assign (where_ne a s) j a = (fun x => if x =? s then x else j) <$> a.
Proof. exact (index_assign_where_ne_from j s a []). Qed.

Lemma index_assign_where_ne_values (j s : Z) (a : list Z) :
  Forall (fun v => v = s \/ v = j) (index_assign (where_ne a s) j a).
Proof.
  rewrite index_assign_where_ne. apply Forall_fmap, Forall_forall.
  intros x _; simpl. destruct (x =? s) eqn:E; [left; lia | by right].
Qed.

Lemma arange_lookup (n i : nat) :
  (i < n)%nat -> arange n !! i = Some (Z.of_nat i).
Proof.
  intros Hi. unfold arange. rewrite list_lookup_fmap.
  by rewrite lookup_seq_lt.
Qed.

Lemma arange_length (n : nat) : length (arange n) = n.
Proof. unfold arange. by rewrite length_fmap, length_seq. Qed.

(** ** Comparisons of binary64 numbers *)

Lemma SFeqb_true (s1 s2 : spec_float) :
  SFeqb s1 s2 = true ->
  s1 = s2 \/ exists b1 b2, s1 = S754_zero b1 /\ s2 = S754_zero b2.
Proof.
  unfold SFeqb.
  destruct s1 as [b1 | b1 | | b1 m1 e1], s2 as [b2 | b2 | | b2 m2 e2];
    cbn; intros H; try discriminate H;
    try (right; eexists _, _; split; reflexivity);
    try (destruct b1; discriminate H);
    try (destruct b2; discriminate H).
  - destruct b1, b2; try discriminate H; left; reflexivity.
  - destruct b1, b2; try discriminate H;
      destruct (e1 ?= e2)%Z eqn:Ee; try discriminate H;
      apply Z.compare_eq in Ee; subst e2;
      destruct (PosDef.Pos.compare_cont Eq m1 m2) eqn:Em; try discriminate H;
      apply Pcompare_Eq_eq in Em; subst m2; left; reflexivity.
Qed.

Lemma eqb_ltb_compat (d c x : float) :
  PrimFloat.eqb d c = true ->
  PrimFloat.ltb d x = PrimFloat.ltb c x /\ PrimFloat.ltb x d = PrimFloat.ltb x c.
Proof.
  rewrite FloatAxioms.eqb_spec, !FloatAxioms.ltb_spec. intros H.
  apply SFeqb_true in H as [-> | (b1 & b2 & -> & ->)]; [split; reflexivity|].
  unfold SFltb. destruct (Prim2SF x); split; reflexivity.
Qed.

(** Numerically equal longitudes are classified alike. *)
Lemma classify_west_eqb (d c : float) :
  PrimFloat.eqb d c = true -> classify_west d = classify_west c.
Proof.
  intros H. unfold classify_west.
  destruct (eqb_ltb_compat d c 0%float H) as (-> & _).
  destruct (eqb_ltb_compat d c (-180)%float H) as (_ & ->).
  by destruct (eqb_ltb_compat d c 180%float H) as (_ & ->).
Qed.

(** ** The engine *)

Section Properties.
Context `{Collab : Collaborators}.

Ltac proj_simpl :=
  cbn [point_data cell_data cells points kind set_point_data set_cell_data
       set_kind vtkGeometryFilter extract_cells fst snd] in *.

Lemma west_mask_classify (delta : list float) :
  west_mask delta = classify_west <$> delta.
Proof.
  unfold west_mask, lower_mask, upper_mask, np_or, np_and, np_lt, np_gt.
  rewrite (zip_with_fmap_same andb). apply zip_with_fmap_same.
Qed.

Lemma east_mask_classify (delta : list float) :
  east_mask delta = (fun d => negb (classify_west d)) <$> delta.
Proof.
  unfold east_mask, np_invert. rewrite west_mask_classify.
  by rewrite <- list_fmap_compose.
Qed.

Lemma cell_delta_length (remeshed : Mesh) (meridian : float) :
  length (cell_delta remeshed meridian) = n_cells remeshed.
Proof.
  unfold cell_delta, np_sub, to_xy0_lons, cell_centers, n_cells; simpl.
  by rewrite !length_fmap.
Qed.

Lemma cell_delta_lookup (remeshed : Mesh) (meridian : float) (i : nat) :
  cell_delta remeshed meridian !! i
  = (fun lon => PrimFloat.sub lon meridian)
      <$> (to_xy0_lons (cell_centers remeshed) !! i).
Proof. unfold cell_delta, np_sub. by rewrite list_lookup_fmap. Qed.

Lemma west_mask_length (remeshed : Mesh) (meridian : float) :
  length (west_mask (cell_delta remeshed meridian)) = n_cells remeshed.
Proof. by rewrite west_mask_classify, length_fmap, cell_delta_length. Qed.

Lemma cast_extract_cells (m : Mesh) (mask : list bool) :
  cast_UnstructuredGrid_to_PolyData (PyDataSet (extract_cells m mask)) false
  = Ok (vtkGeometryFilter (extract_cells m mask)).
Proof. reflexivity. Qed.

Lemma set_masked_Ok (m m' : Mesh) (name : string) (mask : list bool) (v : Z) :
  set_masked m name mask v = Ok m' ->
  exists a a', point_data m !! name = Some a /\
               mask_assign mask v a = Ok a' /\
               m' = set_point_data (insert name a') m.
Proof.
  unfold set_masked, point_array. intros H.
  destruct (point_data m !! name) as [a|]; simpl in H; [|discriminate].
  destruct (mask_assign mask v a) as [a'|] eqn:E; simpl in H; [|discriminate].
  injection H as <-. by exists a, a'.
Qed.

Lemma mark_join_Ok (half half' : Mesh) (seam : Z) :
  mark_join half seam = Ok half' ->
  exists a, point_data half !! GV_REMESH_POINT_IDS = Some a /\
            half' = set_point_data
                      (insert GV_REMESH_POINT_IDS
                              (index_assign (where_ne a seam) REMESH_JOIN a)) half.
Proof.
  unfold mark_join, point_array. intros H.
  destruct (point_data half !! GV_REMESH_POINT_IDS) as [a|]; simpl in H;
    [|discriminate].
  injection H as <-. by exists a.
Qed.

(** The meshes [split] hands to [sanitize_data], when it gets that far:
    [r1] is the intersected mesh staged for the west pass, [r2] for the east
    pass. *)
Lemma split_Ok (remeshed : Mesh) (meridian : float) (boundary : bool)
    (t : Mesh * Mesh * Mesh) :
  split remeshed meridian boundary = Ok t ->
  exists (bm a1 a2 aw ae : list Z),
    let base :=
      if negb boundary
      then delete VTK_BOUNDARY_MASK (point_data remeshed)
      else point_data remeshed in
    let r1 := set_point_data (fun _ => <[GV_REMESH_POINT_IDS := a1]> base) remeshed in
    let r2 := set_point_data (fun _ => <[GV_REMESH_POINT_IDS := a2]> base) remeshed in
    let w0 := vtkGeometryFilter
                (extract_cells r1 (west_mask (cell_delta remeshed meridian))) in
    let e0 := vtkGeometryFilter
                (extract_cells r2 (east_mask (cell_delta remeshed meridian))) in
    point_data remeshed !! VTK_BOUNDARY_MASK = Some bm /\
    point_data w0 !! GV_REMESH_POINT_IDS = Some aw /\
    point_data e0 !! GV_REMESH_POINT_IDS = Some ae /\
    t = sanitize_data
          (set_point_data (delete GV_REMESH_POINT_IDS) r2,
           set_point_data
             (insert GV_REMESH_POINT_IDS
                     (index_assign (where_ne aw REMESH_SEAM) REMESH_JOIN aw)) w0,
           set_point_data
             (insert GV_REMESH_POINT_IDS
                     (index_assign (where_ne ae REMESH_SEAM_EAST) REMESH_JOIN ae)) e0).
Proof.
  unfold split. intros H.
  unfold point_array at 1 in H.
  destruct (point_data remeshed !! VTK_BOUNDARY_MASK) as [bm|] eqn:Ebm;
    cbn [rbind] in H; [|discriminate].
  match type of H with rbind (point_array ?m _) _ = _ => set (r0 := m) in * end.
  unfold point_array at 1 in H.
  destruct (point_data r0 !! GV_POINT_IDS) as [ids|] eqn:Eids;
    cbn [rbind] in H; [|discriminate].
  match type of H with rbind ?c _ = _ => destruct c as [r1|] eqn:E1 end;
    cbn [rbind] in H; [|discriminate].
  apply set_masked_Ok in E1 as (a0 & a1 & _ & _ & ->).
  rewrite cast_extract_cells in H. cbn [rbind] in H.
  match type of H with rbind ?c _ = _ => destruct c as [w1|] eqn:Ew end;
    cbn [rbind] in H; [|discriminate].
  apply mark_join_Ok in Ew as (aw & Eaw & ->).
  match type of H with rbind ?c _ = _ => destruct c as [r2|] eqn:E2 end;
    cbn [rbind] in H; [|discriminate].
  apply set_masked_Ok in E2 as (a1' & a2 & _ & _ & ->).
  rewrite cast_extract_cells in H. cbn [rbind] in H.
  match type of H with rbind ?c _ = _ => destruct c as [e1|] eqn:Ee end;
    cbn [rbind] in H; [|discriminate].
  apply mark_join_Ok in Ee as (ae & Eae & ->).
  injection H as <-.
  exists bm, a1, a2, aw, ae. cbv zeta.
  assert (Hr1 : set_point_data (insert GV_REMESH_POINT_IDS a1)
                  (set_point_data (insert GV_REMESH_POINT_IDS ids) r0)
                = set_point_data
                    (fun _ => <[GV_REMESH_POINT_IDS := a1]>
                       (if negb boundary
                        then delete VTK_BOUNDARY_MASK (point_data remeshed)
                        else point_data remeshed)) remeshed).
  { subst r0. unfold set_point_data; destruct boundary; simpl;
      by rewrite insert_insert_eq. }
  assert (Hr2 : set_point_data (insert GV_REMESH_POINT_IDS a2)
                  (set_point_data (insert GV_REMESH_POINT_IDS a1)
                     (set_point_data (insert GV_REMESH_POINT_IDS ids) r0))
                = set_point_data
                    (fun _ => <[GV_REMESH_POINT_IDS := a2]>
                       (if negb boundary
                        then delete VTK_BOUNDARY_MASK (point_data remeshed)
                        else point_data remeshed)) remeshed).
  { rewrite Hr1. unfold set_point_data; simpl. by rewrite insert_insert_eq. }
  rewrite Hr1 in Eaw. rewrite Hr2 in Eae.
  rewrite Hr2, Hr1. done.
Qed.

Lemma remesh_unfold (mesh : Mesh) (meridian : float)
    (boundary check warnings : bool) (w : World) :
  remesh mesh meridian boundary check warnings w
  = if (n_cells mesh =? 0)%nat
    then (if warnings then w else mkWorld false,
          Raise (ValueError "Cannot remesh an empty mesh"))
    else (if warnings then w else mkWorld true,
          if (n_cells (intersected mesh meridian check) =? 0)%nat
          then Ok (intersected mesh meridian check, empty_PolyData, empty_PolyData)
          else split (intersected mesh meridian check) (wrap meridian) boundary).
Proof.
  unfold remesh, bind, when, ret, raise, lift,
    GlobalWarningDisplayOff, GlobalWarningDisplayOn.
  destruct warnings; cbn [negb];
    destruct (n_cells mesh =? 0)%nat; try reflexivity;
    destruct (n_cells (intersected mesh meridian check) =? 0)%nat; reflexivity.
Qed.

(** A successful [remesh] on an intersecting input went through [split]. *)
Lemma remesh_Ok_split (mesh : Mesh) (meridian : float)
    (boundary check warnings : bool) (w w' : World) (t : Mesh * Mesh * Mesh) :
  n_cells (intersected mesh meridian check) <> 0%nat ->
  remesh mesh meridian boundary check warnings w = (w', Ok t) ->
  split (intersected mesh meridian check) (wrap meridian) boundary = Ok t.
Proof.
  intros Hn. rewrite remesh_unfold.
  destruct (n_cells mesh =? 0)%nat; [discriminate|].
  destruct (n_cells (intersected mesh meridian check) =? 0)%nat eqn:E.
  - apply Nat.eqb_eq in E. contradiction.
  - by intros [= _ ->].
Qed.

(** *** Degenerate input *)

(** C5. A mesh with zero cells makes [remesh] fail at once with the
    empty-mesh error (the ValueError "Cannot remesh an empty mesh"): the
    outcome is the exception, and no triple of meshes is returned, whatever
    the flags and the state of the warning display. *)
Theorem remesh_empty_mesh_fails (mesh : Mesh) (meridian : float)
    (boundary check warnings : bool) (w : World) :
  n_cells mesh = 0%nat ->
  (remesh mesh meridian boundary check warnings w).2
  = Raise (ValueError "Cannot remesh an empty mesh") /\
  forall t, (remesh mesh meridian boundary check warnings w).2 <> Ok t.
Proof.
  intros Hn. rewrite remesh_unfold, Hn. cbn. split; [reflexivity | discriminate].
Qed.

(** C10. With warnings suppressed (the flag is false), [remesh] on a mesh
    with zero cells raises its error after the global warning display has
    been switched off and before it is switched on again: the display is
    left off, whatever it was on entry. *)
Theorem remesh_empty_mesh_leaves_warnings_off (mesh : Mesh) (meridian : float)
    (boundary check : bool) (w : World) :
  n_cells mesh = 0%nat ->
  remesh mesh meridian boundary check false w
  = (mkWorld false, Raise (ValueError "Cannot remesh an empty mesh")) /\
  GlobalWarningDisplay (remesh mesh meridian boundary check false w).1 = false.
Proof.
  intros Hn. rewrite remesh_unfold, Hn. cbn. split; reflexivity.
Qed.

(** On the paths that return, the display is switched back on. *)
Lemma remesh_Ok_restores_warnings (mesh : Mesh) (meridian : float)
    (boundary check : bool) (w w' : World) (t : Mesh * Mesh * Mesh) :
  remesh mesh meridian boundary check false w = (w', Ok t) ->
  GlobalWarningDisplay w' = true.
Proof.
  rewrite remesh_unfold.
  destruct (n_cells mesh =? 0)%nat; [discriminate|].
  by intros [= <- _].
Qed.

(** *** Provenance tagging *)

Lemma tag_cells_tagged (m : Mesh) :
  is_Some (cell_data (tag_cells m) !! GV_CELL_IDS).
Proof.
  unfold tag_cells. destruct (cell_data m !! GV_CELL_IDS) eqn:E.
  - rewrite E. eauto.
  - cbn. rewrite lookup_insert_eq. eauto.
Qed.

Lemma tag_points_tagged (m : Mesh) :
  is_Some (point_data (tag_points m) !! GV_POINT_IDS).
Proof.
  unfold tag_points. destruct (point_data m !! GV_POINT_IDS) eqn:E.
  - rewrite E. eauto.
  - cbn. rewrite lookup_insert_eq. eauto.
Qed.

Lemma tag_cells_fixed (m : Mesh) :
  is_Some (cell_data m !! GV_CELL_IDS) -> tag_cells m = m.
Proof. intros [a Ha]. unfold tag_cells. by rewrite Ha. Qed.

Lemma tag_points_fixed (m : Mesh) :
  is_Some (point_data m !! GV_POINT_IDS) -> tag_points m = m.
Proof. intros [a Ha]. unfold tag_points. by rewrite Ha. Qed.

Lemma tag_points_cell_data (m : Mesh) : cell_data (tag_points m) = cell_data m.
Proof. unfold tag_points. by destruct (point_data m !! GV_POINT_IDS). Qed.

Lemma tag_cells_point_data (m : Mesh) : point_data (tag_cells m) = point_data m.
Proof. unfold tag_cells. by destruct (cell_data m !! GV_CELL_IDS). Qed.

Lemma tag_cells_fixed_points (m : Mesh) (a : list Z) :
  point_data m !! GV_POINT_IDS = Some a ->
  point_data (tag_points (tag_cells m)) = point_data m.
Proof.
  intros Ha. rewrite tag_points_fixed; [apply tag_cells_point_data|].
  rewrite tag_cells_point_data. eauto.
Qed.

Lemma tag_cells_n_points (m : Mesh) : n_points (tag_cells m) = n_points m.
Proof. unfold tag_cells. by destruct (cell_data m !! GV_CELL_IDS). Qed.

(** C7. Provenance tagging (lines 115-119): an absent [GV_CELL_IDS] or
    [GV_POINT_IDS] array is created as 0..n-1, entry [i] holding [i]; an
    array that is present is left as it is, so a mesh that has both is not
    changed at all; and tagging twice gives the same mesh, hence the same
    arrays, as tagging once. *)
Theorem tag_idempotent (m : Mesh) :
  (cell_data m !! GV_CELL_IDS = None ->
   cell_data (tag m) !! GV_CELL_IDS = Some (arange (n_cells m)) /\
   forall i, (i < n_cells m)%nat -> arange (n_cells m) !! i = Some (Z.of_nat i)) /\
  (point_data m !! GV_POINT_IDS = None ->
   point_data (tag m) !! GV_POINT_IDS = Some (arange (n_points m)) /\
   forall i, (i < n_points m)%nat -> arange (n_points m) !! i = Some (Z.of_nat i)) /\
  (forall a, cell_data m !! GV_CELL_IDS = Some a -> cell_data (tag m) = cell_data m) /\
  (forall a, point_data m !! GV_POINT_IDS = Some a -> point_data (tag m) = point_data m) /\
  (is_Some (cell_data m !! GV_CELL_IDS) ->
   is_Some (point_data m !! GV_POINT_IDS) -> tag m = m) /\
  tag (tag m) = tag m.
Proof.
  split; [|split; [|split; [|split; [|split]]]].
  - intros Hc. split; [|intros i Hi; by apply arange_lookup].
    unfold tag. rewrite tag_points_cell_data. unfold tag_cells. rewrite Hc.
    cbn. by rewrite lookup_insert_eq.
  - intros Hp. split; [|intros i Hi; by apply arange_lookup].
    unfold tag, tag_points. rewrite tag_cells_point_data, Hp.
    cbn. by rewrite lookup_insert_eq, tag_cells_n_points.
  - intros a Ha. unfold tag. rewrite tag_points_cell_data.
    by rewrite tag_cells_fixed by eauto.
  - intros a Ha. unfold tag. by apply (tag_cells_fixed_points m a).
  - intros Hc Hp. unfold tag. rewrite tag_cells_fixed by done.
    by apply tag_points_fixed.
  - unfold tag.
    assert (Hc : is_Some (cell_data (tag_points (tag_cells m)) !! GV_CELL_IDS)).
    { rewrite tag_points_cell_data. apply tag_cells_tagged. }
    rewrite (tag_cells_fixed _ Hc).
    apply tag_points_fixed, tag_points_tagged.
Qed.

(** *** The split into hemispheres *)

(** C2. For a cell of the intersected mesh whose centroid longitude is
    [lon], let [delta] be [lon - meridian], lying in (-360, 360).  The cell
    is selected by the west mask exactly when [delta] is in
    (-180, 0) ∪ (180, 360), and by the east mask exactly when it is not; a
    [delta] equal to 0, -180 or 180 (as numbers, so the negative zero
    counts as 0) puts the cell in the east. *)
Theorem cell_classification (remeshed : Mesh) (meridian : float) (i : nat)
    (lon : float) :
  to_xy0_lons (cell_centers remeshed) !! i = Some lon ->
  let delta := PrimFloat.sub lon meridian in
  PrimFloat.ltb (-360)%float delta = true ->
  PrimFloat.ltb delta 360%float = true ->
  (west_mask (cell_delta remeshed meridian) !! i = Some true
   <-> in_west_range delta) /\
  (east_mask (cell_delta remeshed meridian) !! i = Some true
   <-> ~ in_west_range delta) /\
  (PrimFloat.eqb delta 0%float = true \/
   PrimFloat.eqb delta (-180)%float = true \/
   PrimFloat.eqb delta 180%float = true ->
   west_mask (cell_delta remeshed meridian) !! i = Some false /\
   east_mask (cell_delta remeshed meridian) !! i = Some true).
Proof.
  intros Hlon delta Hlo Hhi.
  rewrite west_mask_classify, east_mask_classify, !list_lookup_fmap,
    cell_delta_lookup, Hlon.
  cbn [fmap option_fmap option_map]. fold delta.
  split; [|split].
  - unfold classify_west, in_west_range. rewrite Hhi.
    destruct (PrimFloat.ltb delta 0), (PrimFloat.ltb (-180) delta),
      (PrimFloat.ltb 180 delta); cbn; intuition congruence.
  - unfold classify_west, in_west_range. rewrite Hhi.
    destruct (PrimFloat.ltb delta 0), (PrimFloat.ltb (-180) delta),
      (PrimFloat.ltb 180 delta); cbn; intuition congruence.
  - intros [E | [E | E]]; rewrite (classify_west_eqb _ _ E); split; reflexivity.
Qed.

(** The masks are complementary: every cell is selected by exactly one. *)
Lemma east_mask_complement (delta : list float) (i : nat) (b : bool) :
  west_mask delta !! i = Some b -> east_mask delta !! i = Some (negb b).
Proof.
  unfold east_mask, np_invert. rewrite list_lookup_fmap. by intros ->.
Qed.

(** C3, as amended. On an intersecting input the cells of west and east add
    up to the cells of the remeshed output, and every remeshed cell goes to
    exactly one side: the [GV_CELL_IDS] arrays of west and east together are
    a rearrangement of the remeshed array.  (The identifiers themselves may
    occur on both sides.) *)
Theorem partition_complete (mesh : Mesh) (meridian : float)
    (boundary check warnings : bool) (w w' : World) (r west east : Mesh) :
  sanitize_keeps_cells ->
  sanitize_keeps_cell_array GV_CELL_IDS ->
  GV_CELL_IDS <> VTK_CELL_IDS ->
  n_cells (intersected mesh meridian check) <> 0%nat ->
  remesh mesh meridian boundary check warnings w = (w', Ok (r, west, east)) ->
  (n_cells west + n_cells east)%nat = n_cells r /\
  forall ids, cell_data r !! GV_CELL_IDS = Some ids ->
              length ids = n_cells r ->
    exists wi ei, cell_data west !! GV_CELL_IDS = Some wi /\
                  cell_data east !! GV_CELL_IDS = Some ei /\
                  wi ++ ei ≡ₚ ids.
Proof.
  intros Hcells Harr Hne Hn Hrun.
  apply (remesh_Ok_split _ _ _ _ _ _ _ _ Hn) in Hrun.
  set (im := intersected mesh meridian check) in *.
  apply split_Ok in Hrun as (bm & a1 & a2 & aw & ae & Hrun).
  cbv zeta in Hrun. destruct Hrun as (_ & _ & _ & Ht).
  match type of Ht with _ = sanitize_data ?t => set (t0 := t) in * end.
  destruct (Hcells t0) as (Hc1 & Hc2 & Hc3).
  destruct (Harr t0) as (Hd1 & Hd2 & Hd3).
  rewrite <- Ht in Hc1, Hc2, Hc3, Hd1, Hd2, Hd3.
  subst t0. proj_simpl.
  assert (Hlen : length (west_mask (cell_delta im (wrap meridian)))
                 = length (cells im)) by apply west_mask_length.
  split.
  - unfold n_cells. rewrite Hc1, Hc2, Hc3, !length_map.
    unfold east_mask, np_invert.
    by apply mask_select_complement_length.
  - intros ids Hids Hl. rewrite Hd1 in Hids.
    unfold n_cells in Hl. rewrite Hc1 in Hl.
    exists (mask_select (west_mask (cell_delta im (wrap meridian))) ids),
           (mask_select (east_mask (cell_delta im (wrap meridian))) ids).
    rewrite Hd2, Hd3, !lookup_insert_ne, !lookup_fmap, Hids by done.
    split; [done|]. split; [done|].
    unfold east_mask, np_invert.
    apply mask_select_complement_perm. congruence.
Qed.

(** C6. On an intersecting input the remeshed output carries the boundary
    mask [VTK_BOUNDARY_MASK] exactly when the caller asked for it, and never
    carries the staging array [GV_REMESH_POINT_IDS]. *)
Theorem remeshed_schema (mesh : Mesh) (meridian : float)
    (boundary check warnings : bool) (w w' : World) (r west east : Mesh) :
  GV_REMESH_POINT_IDS <> VTK_BOUNDARY_MASK ->
  sanitize_keeps_point_array VTK_BOUNDARY_MASK ->
  sanitize_keeps_point_array GV_REMESH_POINT_IDS ->
  n_cells (intersected mesh meridian check) <> 0%nat ->
  remesh mesh meridian boundary check warnings w = (w', Ok (r, west, east)) ->
  (is_Some (point_data r !! VTK_BOUNDARY_MASK) <-> boundary = true) /\
  point_data r !! GV_REMESH_POINT_IDS = None.
Proof.
  intros Hne Hbm Hgv Hn Hrun.
  apply (remesh_Ok_split _ _ _ _ _ _ _ _ Hn) in Hrun.
  apply split_Ok in Hrun as (bm & a1 & a2 & aw & ae & Hrun).
  cbv zeta in Hrun. destruct Hrun as (Hmask & _ & _ & Ht).
  match type of Ht with _ = sanitize_data ?t => set (t0 := t) in * end.
  destruct (Hbm t0) as (Hb1 & _). destruct (Hgv t0) as (Hg1 & _).
  rewrite <- Ht in Hb1, Hg1. subst t0.
  cbn [fst snd set_point_data point_data] in Hb1, Hg1.
  rewrite lookup_delete_eq in Hg1.
  rewrite lookup_delete_ne, lookup_insert_ne in Hb1 by done.
  split; [|exact Hg1].
  rewrite Hb1. destruct boundary; cbn [negb].
  - rewrite Hmask. split; [done | eauto].
  - rewrite lookup_delete_eq. split; [by intros [? ?] | done].
Qed.

(** *** No intersection *)

(** C1, as amended. When the intersected mesh has zero cells, [remesh]
    returns the intersected mesh itself with two empty meshes: west and east
    have no points and no cells, and the first component has no cells, so
    it is not the prepared input when that has cells. *)
Theorem remesh_no_intersection (mesh : Mesh) (meridian : float)
    (boundary check warnings : bool) (w : World) :
  n_cells mesh <> 0%nat ->
  n_cells (intersected mesh meridian check) = 0%nat ->
  remesh mesh meridian boundary check warnings w
  = (if warnings then w else mkWorld true,
     Ok (intersected mesh meridian check, empty_PolyData, empty_PolyData)) /\
  n_points empty_PolyData = 0%nat /\
  n_cells empty_PolyData = 0%nat /\
  (n_cells (prepare mesh) <> 0%nat ->
   intersected mesh meridian check <> prepare mesh).
Proof.
  intros Hm Hi. rewrite remesh_unfold.
  apply Nat.eqb_neq in Hm. rewrite Hm, Hi. cbn.
  repeat split. intros Hp Heq. rewrite Heq in Hi. contradiction.
Qed.

(** *** [cast_UnstructuredGrid_to_PolyData] *)

Lemma cast_UnstructuredGrid (mesh : PyObj) (grid : Mesh) (clean_flag : bool) :
  isinstance_UnstructuredGrid mesh = Some grid ->
  cast_UnstructuredGrid_to_PolyData mesh clean_flag
  = Ok (if clean_flag then clean (vtkGeometryFilter grid)
        else vtkGeometryFilter grid).
Proof. unfold cast_UnstructuredGrid_to_PolyData. by intros ->. Qed.

(** An argument that is not an unstructured grid never gets as far as the
    TypeError: [type(mesh).split] fails first. *)
Lemma cast_other_never_TypeError (mesh : PyObj) (clean_flag : bool) :
  isinstance_UnstructuredGrid mesh = None ->
  (exists msg, cast_UnstructuredGrid_to_PolyData mesh clean_flag
               = Raise (AttributeError msg)) \/
  (exists msg, cast_UnstructuredGrid_to_PolyData mesh clean_flag
               = Raise (IndexError msg)).
Proof.
  unfold cast_UnstructuredGrid_to_PolyData. intros ->.
  destruct mesh as [m| s | z |]; cbn.
  - destruct (kind m); cbn; eauto.
  - right. eauto.
  - left. eauto.
  - left. eauto.
Qed.

End Properties.

(** C9. The failing input: a PolyData handed to
    [cast_UnstructuredGrid_to_PolyData].  The guard is entered, but the
    message is built from [type(mesh).split(" ")], an attribute lookup on
    the class object, so the call ends in an AttributeError and the
    TypeError of the next line is never raised. *)
Theorem cast_PolyData_raises_AttributeError `{Collab : Collaborators}
    (clean_flag : bool) :
  isinstance_UnstructuredGrid (PyDataSet Lab.crossing) = None /\
  cast_UnstructuredGrid_to_PolyData (PyDataSet Lab.crossing) clean_flag
  = Raise (AttributeError "type object 'PolyData' has no attribute 'split'") /\
  forall msg, cast_UnstructuredGrid_to_PolyData (PyDataSet Lab.crossing) clean_flag
              <> Raise (TypeError msg).
Proof. split; [reflexivity|]. split; [reflexivity | discriminate]. Qed.

(** A string argument fails differently again: [str.split(" ")] splits the
    blank itself, and item 1 of the empty list does not exist. *)
Lemma cast_str_raises_IndexError `{Collab : Collaborators} (s : string)
    (clean_flag : bool) :
  cast_UnstructuredGrid_to_PolyData (PyStr s) clean_flag
  = Raise (IndexError "list index out of range").
Proof. reflexivity. Qed.

(** ** The laboratory meets the contracts *)

#[local] Existing Instance Lab.collaborators.

Lemma lab_keeps_cells : @sanitize_keeps_cells Lab.collaborators.
Proof. intros [[r w] e]. cbn. done. Qed.

Lemma lab_keeps_point_array (name : string) :
  name <> VTK_POINT_IDS -> @sanitize_keeps_point_array Lab.collaborators name.
Proof.
  intros Hne [[r w] e]. cbn. by rewrite !lookup_delete_ne.
Qed.

Lemma lab_keeps_cell_array (name : string) :
  name <> VTK_CELL_IDS -> @sanitize_keeps_cell_array Lab.collaborators name.
Proof.
  intros Hne [[r w] e]. cbn. by rewrite !lookup_delete_ne.
Qed.

(** ** The properties at concrete inputs *)

Lemma remesh_empty_mesh_fails_witness :
  n_cells empty_PolyData = 0%nat /\
  (remesh empty_PolyData 10%float true false false Lab.world0).2
  = Raise (ValueError "Cannot remesh an empty mesh").
Proof.
  split; [reflexivity|].
  apply (remesh_empty_mesh_fails empty_PolyData 10%float true false false
           Lab.world0). reflexivity.
Defined.

Lemma remesh_empty_mesh_leaves_warnings_off_witness :
  GlobalWarningDisplay Lab.world0 = true /\
  GlobalWarningDisplay
    (remesh empty_PolyData 10%float true false false Lab.world0).1 = false.
Proof.
  split; [reflexivity|].
  apply (remesh_empty_mesh_leaves_warnings_off empty_PolyData 10%float true
           false Lab.world0). reflexivity.
Defined.

Lemma tag_idempotent_witness :
  cell_data Lab.crossing !! GV_CELL_IDS = None /\
  cell_data (tag Lab.crossing) !! GV_CELL_IDS = Some [0] /\
  point_data (tag Lab.crossing) !! GV_POINT_IDS = Some [0; 1; 2] /\
  tag (tag Lab.crossing) = tag Lab.crossing.
Proof.
  destruct (tag_idempotent Lab.crossing) as (Hc & Hp & _ & _ & _ & Hidem).
  split; [reflexivity|].
  split; [exact (proj1 (Hc eq_refl))|].
  split; [exact (proj1 (Hp eq_refl)) | exact Hidem].
Defined.

Lemma cell_classification_witness :
  to_xy0_lons (cell_centers (Lab.crossing_split Lab.crossing)) = [(-45)%float; 45%float] /\
  west_mask (cell_delta (Lab.crossing_split Lab.crossing) 0%float) !! 0%nat = Some true /\
  east_mask (cell_delta (Lab.crossing_split Lab.crossing) 0%float) !! 1%nat = Some true.
Proof.
  split; [reflexivity|].
  assert (H0 : to_xy0_lons (cell_centers (Lab.crossing_split Lab.crossing)) !! 0%nat
               = Some (-45)%float) by reflexivity.
  assert (H1 : to_xy0_lons (cell_centers (Lab.crossing_split Lab.crossing)) !! 1%nat
               = Some 45%float) by reflexivity.
  destruct (cell_classification (Lab.crossing_split Lab.crossing) 0%float 0%nat
              (-45)%float H0 eq_refl eq_refl) as (Hw & _ & _).
  destruct (cell_classification (Lab.crossing_split Lab.crossing) 0%float 1%nat
              45%float H1 eq_refl eq_refl) as (_ & He & _).
  split.
  - apply Hw. left. split; reflexivity.
  - apply He. intros [[_ H] | [H _]]; vm_compute in H; discriminate.
Defined.

Lemma partition_complete_witness :
  n_cells (intersected Lab.crossing 0%float false) = 2%nat /\
  exists r west east,
    (remesh Lab.crossing 0%float false false false Lab.world0).2
    = Ok (r, west, east) /\
    (n_cells west + n_cells east)%nat = n_cells r.
Proof.
  split; [reflexivity|].
  destruct (remesh Lab.crossing 0%float false false false Lab.world0)
    as [w' [[[r west] east] | e]] eqn:E.
  - exists r, west, east. split; [reflexivity|].
    apply (partition_complete Lab.crossing 0%float false false false
             Lab.world0 w' r west east).
    + exact lab_keeps_cells.
    + apply lab_keeps_cell_array. discriminate.
    + discriminate.
    + discriminate.
    + exact E.
  - vm_compute in E. discriminate.
Defined.

Lemma remeshed_schema_witness :
  exists r west east,
    (remesh Lab.crossing 0%float true false false Lab.world0).2
    = Ok (r, west, east) /\
    is_Some (point_data r !! VTK_BOUNDARY_MASK) /\
    point_data r !! GV_REMESH_POINT_IDS = None.
Proof.
  destruct (remesh Lab.crossing 0%float true false false Lab.world0)
    as [w' [[[r west] east] | e]] eqn:E.
  - destruct (remeshed_schema Lab.crossing 0%float true false false
                Lab.world0 w' r west east) as (Hb & Hg).
    + discriminate.
    + apply lab_keeps_point_array. discriminate.
    + apply lab_keeps_point_array. discriminate.
    + discriminate.
    + exact E.
    + exists r, west, east. split; [reflexivity|]. split; [by apply Hb | exact Hg].
  - vm_compute in E. discriminate.
Defined.

Lemma remesh_no_intersection_witness :
  n_cells Lab.missed = 1%nat /\
  n_cells (intersected Lab.missed 0%float false) = 0%nat /\
  remesh Lab.missed 0%float false false false Lab.world0
  = (mkWorld true,
     Ok (intersected Lab.missed 0%float false, empty_PolyData, empty_PolyData)).
Proof.
  split; [reflexivity|]. split; [reflexivity|].
  apply (remesh_no_intersection Lab.missed 0%float false false false
           Lab.world0); [discriminate | reflexivity].
Defined.

(** ** Where the specification and the engine part *)

(** C1, the claim as stated fails: meridian 0 misses [Lab.missed], the
    intersected mesh has no cells, and [remesh] returns that empty mesh, not
    the prepared (tagged, triangulated) input, which has its one cell. *)
Lemma remesh_no_intersection_not_input :
  n_cells (intersected Lab.missed 0%float false) = 0%nat /\
  (remesh Lab.missed 0%float false false false Lab.world0).2
  = Ok (empty_PolyData, empty_PolyData, empty_PolyData) /\
  n_cells (prepare Lab.missed) = 1%nat /\
  (remesh Lab.missed 0%float false false false Lab.world0).2
  <> Ok (prepare Lab.missed, empty_PolyData, empty_PolyData).
Proof.
  split; [reflexivity|]. split; [vm_compute; reflexivity|].
  split; [reflexivity|].
  intros H.
  assert (E : (remesh Lab.missed 0%float false false false Lab.world0).2
              = Ok (empty_PolyData, empty_PolyData, empty_PolyData))
    by (vm_compute; reflexivity).
  pose proof (eq_trans (eq_sym E) H) as Heq.
  apply (f_equal (fun o : result (Mesh * Mesh * Mesh) =>
                    match o with Ok t => n_cells t.1.1 | Raise _ => 0%nat end))
    in Heq.
  vm_compute in Heq. discriminate.
Qed.

(** C3, the claim as stated fails: the triangle [Lab.crossing] is cell 0 of
    its mesh; cut at meridian 0 it leaves one fragment in the west and one
    in the east, and both carry the identifier 0. *)
Lemma partition_ids_shared :
  n_cells (intersected Lab.crossing 0%float false) <> 0%nat /\
  exists r west east,
    (remesh Lab.crossing 0%float false false false Lab.world0).2
    = Ok (r, west, east) /\
    cell_data west !! GV_CELL_IDS = Some [0] /\
    cell_data east !! GV_CELL_IDS = Some [0] /\
    ~ (forall x wi ei,
         cell_data west !! GV_CELL_IDS = Some wi ->
         cell_data east !! GV_CELL_IDS = Some ei ->
         x ∈ wi -> x ∉ ei).
Proof.
  split; [discriminate|].
  destruct (remesh Lab.crossing 0%float false false false Lab.world0)
    as [w' [[[r west] east] | e]] eqn:E; vm_compute in E; [|discriminate].
  injection E as _ <- <- <-.
  eexists _, _, _. split; [reflexivity|].
  assert (Hw : forall A (x : A), x ∈ [x]) by (intros; apply list_elem_of_here).
  split; [vm_compute; reflexivity|]. split; [vm_compute; reflexivity|].
  intros H. apply (H 0 [0] [0]); [vm_compute; reflexivity .. | apply Hw | apply Hw].
Qed.

(** C8, the claim as stated fails: with a [pv.Plane] that returns, the
    patch is built for the radius 0 and for the radius -1 all the same (two
    triangles on four points); no exception is raised, so not every radius
    less than or equal to zero is rejected. *)
Lemma cutting_surface_zero_radius :
  PrimFloat.leb 0%float 0%float = true /\
  PrimFloat.leb (-1)%float 0%float = true /\
  (exists patch,
     @Strict.cutting_surface lab_geometry 0%float 0%float = Ok patch /\
     n_cells patch = 2%nat /\ n_points patch = 4%nat) /\
  (exists patch,
     @Strict.cutting_surface lab_geometry (-1)%float 0%float = Ok patch /\
     n_cells patch = 2%nat /\ n_points patch = 4%nat) /\
  ~ (forall radius meridian : float,
       PrimFloat.leb radius 0%float = true ->
       exists e, @Strict.cutting_surface lab_geometry radius meridian = Raise e).
Proof.
  split; [reflexivity|]. split; [reflexivity|].
  split; [eexists; split; [reflexivity | split; reflexivity]|].
  split; [eexists; split; [reflexivity | split; reflexivity]|].
  intros H. destruct (H 0%float 0%float eq_refl) as (e & He).
  vm_compute in He. discriminate.
Qed.

(** * geovista.pantry *)

(** ** Characters and strings *)

Ltac all_chars c := destruct c as [[] [] [] [] [] [] [] []]; reflexivity.

Lemma upper_upper (c : ascii) : Pantry.upper (Pantry.upper c) = Pantry.upper c.
Proof. all_chars c. Qed.

Lemma lower_lower (c : ascii) : Pantry.lower (Pantry.lower c) = Pantry.lower c.
Proof. all_chars c. Qed.

Lemma lower_upper (c : ascii) : Pantry.lower (Pantry.upper c) = Pantry.lower c.
Proof. all_chars c. Qed.

Lemma upper_blank (c : ascii) :
  Ascii.eqb (Pantry.upper c) " " = Ascii.eqb c " ".
Proof. all_chars c. Qed.

Lemma lower_blank (c : ascii) :
  Ascii.eqb (Pantry.lower c) " " = Ascii.eqb c " ".
Proof. all_chars c. Qed.

Lemma upper_underscore (c : ascii) :
  Ascii.eqb (Pantry.upper c) "_" = Ascii.eqb c "_".
Proof. all_chars c. Qed.

Lemma lower_underscore (c : ascii) :
  Ascii.eqb (Pantry.lower c) "_" = Ascii.eqb c "_".
Proof. all_chars c. Qed.

Lemma upper_not_lower (c : ascii) : Pantry.is_lower (Pantry.upper c) = false.
Proof. all_chars c. Qed.

Lemma lower_not_upper (c : ascii) : Pantry.is_upper (Pantry.lower c) = false.
Proof. all_chars c. Qed.

Lemma str_map_length (f : ascii -> ascii) (s : string) :
  String.length (Pantry.str_map f s) = String.length s.
Proof. induction s as [|c s IH]; simpl; [reflexivity | by rewrite IH]. Qed.

Lemma str_map_get (f : ascii -> ascii) (s : string) (i : nat) :
  String.get i (Pantry.str_map f s) = f <$> String.get i s.
Proof.
  revert i; induction s as [|c s IH]; intros [|i]; simpl; try reflexivity.
  apply IH.
Qed.

Lemma str_split_nonempty (sep : ascii) (s : string) :
  exists w ws, Pantry.str_split sep s = w :: ws.
Proof.
  destruct s as [|c s]; simpl; [eauto|].
  destruct (Ascii.eqb c sep); [eauto|].
  destruct (Pantry.str_split sep s); eauto.
Qed.

Lemma join_cons_char (sep : string) (c : ascii) (w : string) (ws : list string) :
  Pantry.join sep (String c w :: ws) = String c (Pantry.join sep (w :: ws)).
Proof. destruct ws; reflexivity. Qed.

(** Splitting at the blanks, capitalizing the words and joining them again
    is the one pass [scan]. *)
Lemma join_capitalize_split (t : string) :
  forall w ws, Pantry.str_split " " t = w :: ws ->
    Pantry.join " " (Pantry.str_map Pantry.lower w :: map Pantry.capitalize ws)
    = Pantry.scan false t /\
    Pantry.join " " (Pantry.capitalize w :: map Pantry.capitalize ws)
    = Pantry.scan true t.
Proof.
  induction t as [|c t IH]; intros w ws Hs; simpl in Hs.
  - injection Hs as <- <-. split; reflexivity.
  - destruct (str_split_nonempty " " t) as (w' & ws' & Ht).
    specialize (IH w' ws' Ht) as (IH1 & IH2).
    rewrite Ht in Hs. cbn [Pantry.scan].
    destruct (Ascii.eqb c " ") eqn:Ec.
    + injection Hs as <- <-. cbn [map Pantry.capitalize Pantry.str_map].
      change (Pantry.join " " (EmptyString :: Pantry.capitalize w'
                                 :: map Pantry.capitalize ws'))
        with (String " " (Pantry.join " " (Pantry.capitalize w'
                                 :: map Pantry.capitalize ws'))).
      by rewrite IH2.
    + injection Hs as <- <-.
      cbn [Pantry.capitalize Pantry.str_map].
      rewrite !join_cons_char, IH1. split; reflexivity.
Qed.

Lemma capitalise_scan (s : string) :
  Pantry.capitalise s = Pantry.scan true (Pantry.replace "_" " " s).
Proof.
  unfold Pantry.capitalise.
  destruct (str_split_nonempty " " (Pantry.replace "_" " " s)) as (w & ws & Hs).
  rewrite Hs. exact (proj2 (join_capitalize_split _ w ws Hs)).
Qed.

Lemma scan_length (b : bool) (t : string) :
  String.length (Pantry.scan b t) = String.length t.
Proof.
  revert b; induction t as [|c t IH]; intros b; simpl; [reflexivity|].
  destruct (Ascii.eqb c " "); simpl; by rewrite IH.
Qed.

Lemma scan_lower (b : bool) (t : string) :
  Pantry.str_map Pantry.lower (Pantry.scan b t) = Pantry.str_map Pantry.lower t.
Proof.
  revert b; induction t as [|c t IH]; intros b; simpl; [reflexivity|].
  destruct (Ascii.eqb c " ") eqn:Ec; simpl; rewrite IH.
  - apply Ascii.eqb_eq in Ec. by subst c.
  - destruct b; by rewrite ?lower_upper, ?lower_lower.
Qed.

Lemma scan_scan (b : bool) (t : string) :
  Pantry.scan b (Pantry.scan b t) = Pantry.scan b t.
Proof.
  revert b; induction t as [|c t IH]; intros b; simpl; [reflexivity|].
  destruct (Ascii.eqb c " ") eqn:Ec; simpl; [by rewrite IH|].
  destruct b; rewrite ?upper_blank, ?lower_blank, Ec, IH;
    by rewrite ?upper_upper, ?lower_lower.
Qed.

Lemma replace_scan_replace (b : bool) (s : string) :
  Pantry.replace "_" " " (Pantry.scan b (Pantry.replace "_" " " s))
  = Pantry.scan b (Pantry.replace "_" " " s).
Proof.
  unfold Pantry.replace.
  revert b; induction s as [|c s IH]; intros b; simpl; [reflexivity|].
  destruct (Ascii.eqb c "_") eqn:Eu; simpl.
  - by rewrite IH.
  - destruct (Ascii.eqb c " ") eqn:Ec; simpl; [by rewrite IH|].
    destruct b; rewrite ?upper_underscore, ?lower_underscore, Eu, IH; reflexivity.
Qed.

Lemma scan_get_blank (b : bool) (t : string) (i : nat) :
  String.get i (Pantry.scan b t) = Some " "%char
  <-> String.get i t = Some " "%char.
Proof.
  revert b i; induction t as [|c t IH]; intros b i; simpl; [reflexivity|].
  destruct (Ascii.eqb c " ") eqn:Ec.
  - apply Ascii.eqb_eq in Ec. subst c. destruct i as [|i]; simpl; [reflexivity|].
    apply IH.
  - destruct i as [|i]; simpl; [|apply IH].
    assert (Hne : forall d, Ascii.eqb d " " = false -> Some d <> Some " "%char).
    { intros d Hd [= ->]. discriminate. }
    split; intros H; exfalso.
    + destruct b; eapply Hne; try exact H; by rewrite ?upper_blank, ?lower_blank.
    + by eapply Hne.
Qed.

Lemma scan_get_underscore (b : bool) (t : string) (i : nat) :
  String.get i (Pantry.scan b t) = Some "_"%char
  -> String.get i t = Some "_"%char.
Proof.
  revert b i; induction t as [|c t IH]; intros b i; simpl; [done|].
  destruct (Ascii.eqb c " ") eqn:Ec.
  - destruct i as [|i]; simpl; [discriminate | apply IH].
  - destruct i as [|i]; simpl; [|apply IH].
    intros [= H]. f_equal. apply Ascii.eqb_eq.
    destruct b; [rewrite <- upper_underscore | rewrite <- lower_underscore];
      rewrite H; reflexivity.
Qed.

Lemma scan_get_case (b : bool) (t : string) (i : nat) (c : ascii) :
  String.get i (Pantry.scan b t) = Some c ->
  match i with
  | O => if b then Pantry.is_lower c = false else Pantry.is_upper c = false
  | S j =>
      match String.get j (Pantry.scan b t) with
      | Some d => if Ascii.eqb d " " then Pantry.is_lower c = false
                  else Pantry.is_upper c = false
      | None => True
      end
  end.
Proof.
  revert b i c; induction t as [|a t IH]; intros b i c; simpl;
    [destruct i; discriminate|].
  destruct (Ascii.eqb a " ") eqn:Ea.
  - destruct i as [|[|j]]; simpl.
    + intros [= <-]. by destruct b.
    + intros H. exact (IH true 0%nat c H).
    + intros H. exact (IH true (S j) c H).
  - destruct i as [|[|j]]; simpl.
    + intros [= <-]. destruct b; [apply upper_not_lower | apply lower_not_upper].
    + intros H.
      assert (Hf : Ascii.eqb (if b then Pantry.upper a else Pantry.lower a) " "
                   = false)
        by (destruct b; by rewrite ?upper_blank, ?lower_blank).
      rewrite Hf. exact (IH false 0%nat c H).
    + intros H. exact (IH false (S j) c H).
Qed.

(** ** [capitalise] *)

(** X1. On ASCII text [capitalise] keeps the length of the title. *)
Theorem capitalise_length (title : string) :
  Pantry.isascii title = true ->
  String.length (Pantry.capitalise title) = String.length title.
Proof.
  intros _. rewrite capitalise_scan, scan_length.
  apply str_map_length.
Qed.

(** X2. On ASCII text the result of [capitalise] has a blank exactly where
    the title has a blank or an underscore, and no underscore anywhere. *)
Theorem capitalise_blanks (title : string) (i : nat) :
  Pantry.isascii title = true ->
  (String.get i (Pantry.capitalise title) = Some " "%char
   <-> String.get i title = Some " "%char \/ String.get i title = Some "_"%char)
  /\ String.get i (Pantry.capitalise title) <> Some "_"%char.
Proof.
  intros _. rewrite capitalise_scan. split.
  - rewrite scan_get_blank. unfold Pantry.replace. rewrite str_map_get.
    destruct (String.get i title) as [c|]; simpl; [|intuition discriminate].
    destruct (Ascii.eqb c "_") eqn:Eu.
    + apply Ascii.eqb_eq in Eu. subst c. intuition.
    + split; [intros [= <-]; by left|].
      intros [[= ->] | [= ->]]; [reflexivity | discriminate].
  - intros H. apply scan_get_underscore in H.
    unfold Pantry.replace in H. rewrite str_map_get in H.
    destruct (String.get i title) as [c|]; simpl in H; [|discriminate].
    destruct (Ascii.eqb c "_") eqn:Eu; [discriminate|].
    injection H as ->. discriminate.
Qed.

(** X3. On ASCII text [capitalise] is idempotent. *)
Theorem capitalise_idempotent (title : string) :
  Pantry.isascii title = true ->
  Pantry.capitalise (Pantry.capitalise title) = Pantry.capitalise title.
Proof.
  intros _. rewrite !capitalise_scan.
  by rewrite replace_scan_replace, scan_scan.
Qed.

(** X4. On ASCII text every word of the result of [capitalise] starts with a
    character that is not a lower-case letter, and holds no upper-case
    letter after its first character: a character at the start of the text
    or after a blank is not lower-case, a character after a non-blank is
    not upper-case. *)
Theorem capitalise_word_case (title : string) (i : nat) (c : ascii) :
  Pantry.isascii title = true ->
  String.get i (Pantry.capitalise title) = Some c ->
  match i with
  | O => Pantry.is_lower c = false
  | S j =>
      match String.get j (Pantry.capitalise title) with
      | Some d => if Ascii.eqb d " " then Pantry.is_lower c = false
                  else Pantry.is_upper c = false
      | None => True
      end
  end.
Proof.
  intros _. rewrite capitalise_scan. apply scan_get_case.
Qed.

(** X5. On ASCII text [capitalise] changes letter case at most: lower-cased,
    the result is the lower-cased title with its underscores turned into
    blanks. *)
Theorem capitalise_same_letters (title : string) :
  Pantry.isascii title = true ->
  Pantry.str_map Pantry.lower (Pantry.capitalise title)
  = Pantry.str_map Pantry.lower (Pantry.replace "_" " " title).
Proof.
  intros _. rewrite capitalise_scan. apply scan_lower.
Qed.

(** ** The time series step of [fesom] *)

Lemma timeseries_index_periodic (step k : Z) (n : nat) :
  Pantry.timeseries_index (Some (step + k * Z.of_nat n)) n
  = Pantry.timeseries_index (Some step) n.
Proof.
  unfold Pantry.timeseries_index.
  destruct (n =? 0)%nat eqn:E; [reflexivity|].
  by rewrite Z_mod_plus_full.
Qed.

Lemma timeseries_index_range (step : option Z) (n : nat) :
  (0 < n)%nat ->
  exists idx, Pantry.timeseries_index step n = Pantry.Loaded idx /\
              0 <= idx < Z.of_nat n /\
              idx = match step with None => 0 | Some s => s mod Z.of_nat n end.
Proof.
  intros Hn. unfold Pantry.timeseries_index. destruct step as [s|].
  - destruct (n =? 0)%nat eqn:E; [apply Nat.eqb_eq in E; lia|].
    eexists; split; [reflexivity|]. split; [|reflexivity].
    apply Z.mod_pos_bound. lia.
  - exists 0. split; [reflexivity|]. split; [lia | reflexivity].
Qed.

Lemma getitem_in_range (a : Pantry.NdArray) (n : nat) (rest : list nat) (idx : Z) :
  Pantry.shape a = n :: rest ->
  0 <= idx < Z.of_nat n ->
  exists row, Pantry.getitem a idx = Pantry.Loaded row /\ Pantry.shape row = rest.
Proof.
  intros Hs Hi. unfold Pantry.getitem. rewrite Hs.
  replace (idx <? 0) with false by (symmetry; apply Z.ltb_ge; lia).
  replace (0 <=? idx) with true by (symmetry; apply Z.leb_le; lia).
  replace (idx <? Z.of_nat n) with true by (symmetry; apply Z.ltb_lt; lia).
  cbn. eauto.
Qed.

(** X6. [fesom] is periodic in its step: with [steps] the size of the time
    dimension of the data set, asking for [step + k * steps] gives what
    asking for [step] gives, the same sample or the same error. *)
Theorem fesom_periodic (fetch : string -> Pantry.outcome Pantry.Dataset)
    (ds : Pantry.Dataset) (n : nat) (step k : Z) :
  fetch "tos_Omon_AWI-ESM-1-1-LR_historical_r1i1p1f1_gn_185001-185012.nc"
  = Pantry.Loaded ds ->
  Pantry.dimensions ds !! "time" = Some n ->
  Pantry.fesom fetch (Some (step + k * Z.of_nat n))
  = Pantry.fesom fetch (Some step).
Proof.
  intros Hf Hn.
  assert (Hd : Pantry.dimension_size ds "time" = Pantry.Loaded n)
    by (unfold Pantry.dimension_size; by rewrite Hn).
  unfold Pantry.fesom. rewrite Hf. cbn [Pantry.andthen].
  repeat match goal with
  | |- Pantry.andthen (Pantry.dimension_size _ _) _ = _ =>
      rewrite Hd; cbn [Pantry.andthen]
  | |- Pantry.andthen ?c _ = Pantry.andthen ?c _ =>
      destruct c; cbn [Pantry.andthen]; [|reflexivity]
  end.
  by rewrite timeseries_index_periodic.
Qed.

(** X7. On a data set that has the variables, the attributes and a time
    dimension of [steps > 0] along the first axis of [tos], [fesom] returns
    a sample for every step, negative or past the end included: its data is
    [tos] at index [step mod steps] (index 0 without a step), its name the
    capitalised standard name, its connectivity the shape of the
    longitudes. *)
Theorem fesom_loads (fetch : string -> Pantry.outcome Pantry.Dataset)
    (ds : Pantry.Dataset) (lon_bnds lat_bnds tos : Pantry.NcVariable)
    (standard_name : string) (units : Pantry.Attr) (n : nat)
    (rest : list nat) (step : option Z) :
  fetch "tos_Omon_AWI-ESM-1-1-LR_historical_r1i1p1f1_gn_185001-185012.nc"
  = Pantry.Loaded ds ->
  Pantry.variables ds !! "lon_bnds" = Some lon_bnds ->
  Pantry.variables ds !! "lat_bnds" = Some lat_bnds ->
  Pantry.variables ds !! "tos" = Some tos ->
  Pantry.attrs tos !! "standard_name" = Some (Pantry.AttrStr standard_name) ->
  Pantry.attrs tos !! "units" = Some units ->
  Pantry.dimensions ds !! "time" = Some n ->
  (0 < n)%nat ->
  Pantry.shape (Pantry.value tos) = n :: rest ->
  exists row,
    Pantry.getitem (Pantry.value tos)
      (match step with None => 0 | Some s => s mod Z.of_nat n end)
    = Pantry.Loaded row /\
    Pantry.shape row = rest /\
    Pantry.fesom fetch step
    = Pantry.Loaded
        (Pantry.mkSampleUnstructuredXY
           (Pantry.value lon_bnds) (Pantry.value lat_bnds)
           (Pantry.ConnShape (Pantry.shape (Pantry.value lon_bnds)))
           (Some row) None None None
           (Some (Pantry.capitalise standard_name)) (Some units) (Some n) 2).
Proof.
  intros Hf Hlon Hlat Htos Hsn Hu Hn Hpos Hshape.
  destruct (timeseries_index_range step n Hpos) as (idx & Hidx & Hr & ->).
  destruct (getitem_in_range _ n rest _ Hshape Hr) as (row & Hrow & Hrs).
  exists row. split; [exact Hrow|]. split; [exact Hrs|].
  unfold Pantry.fesom, Pantry.variable, Pantry.getattr, Pantry.dimension_size.
  rewrite Hf. cbn [Pantry.andthen].
  rewrite Hlon. cbn [Pantry.andthen].
  rewrite Hlat. cbn [Pantry.andthen].
  rewrite Htos. cbn [Pantry.andthen].
  rewrite Hsn. cbn [Pantry.andthen Pantry.capitalise_attr].
  rewrite Hu. cbn [Pantry.andthen].
  rewrite Hn. cbn [Pantry.andthen].
  rewrite Hidx. cbn [Pantry.andthen].
  rewrite Hrow. reflexivity.
Qed.

(** X8. On a data set whose time dimension is empty, [fesom] with an
    explicit step fails with a ZeroDivisionError, whatever the step. *)
Theorem fesom_empty_time (fetch : string -> Pantry.outcome Pantry.Dataset)
    (ds : Pantry.Dataset) (lon_bnds lat_bnds tos : Pantry.NcVariable)
    (standard_name : string) (units : Pantry.Attr) (step : Z) :
  fetch "tos_Omon_AWI-ESM-1-1-LR_historical_r1i1p1f1_gn_185001-185012.nc"
  = Pantry.Loaded ds ->
  Pantry.variables ds !! "lon_bnds" = Some lon_bnds ->
  Pantry.variables ds !! "lat_bnds" = Some lat_bnds ->
  Pantry.variables ds !! "tos" = Some tos ->
  Pantry.attrs tos !! "standard_name" = Some (Pantry.AttrStr standard_name) ->
  Pantry.attrs tos !! "units" = Some units ->
  Pantry.dimensions ds !! "time" = Some 0%nat ->
  Pantry.fesom fetch (Some step) = Pantry.Failed Pantry.ZeroDivisionError.
Proof.
  intros Hf Hlon Hlat Htos Hsn Hu Hn.
  unfold Pantry.fesom, Pantry.variable, Pantry.getattr, Pantry.dimension_size.
  rewrite Hf. cbn [Pantry.andthen].
  rewrite Hlon. cbn [Pantry.andthen].
  rewrite Hlat. cbn [Pantry.andthen].
  rewrite Htos. cbn [Pantry.andthen].
  rewrite Hsn. cbn [Pantry.andthen Pantry.capitalise_attr].
  rewrite Hu. cbn [Pantry.andthen].
  rewrite Hn. reflexivity.
Qed.

(** ** The cells of [ww3_global_smc] *)

Lemma broadcast_same_length (f : float -> float -> float) (a b : list float) :
  length a = length b ->
  Pantry.broadcast f a b = Pantry.Loaded (zip_with f a b).
Proof.
  intros H. unfold Pantry.broadcast.
  by rewrite (proj2 (Nat.eqb_eq _ _) H).
Qed.

Lemma broadcast_length (f g : float -> float -> float) (a b r1 r2 : list float) :
  Pantry.broadcast f a b = Pantry.Loaded r1 ->
  Pantry.broadcast g a b = Pantry.Loaded r2 ->
  length r1 = length r2.
Proof.
  unfold Pantry.broadcast.
  destruct (length a =? length b)%nat.
  - intros [= <-] [= <-]. by rewrite !length_zip_with.
  - destruct a as [|x [|x' a]], b as [|y [|y' b]];
      intros E1 E2; try discriminate E1;
      injection E1 as <-; injection E2 as <-;
      cbn [length]; fold (@fmap list _ float float); by rewrite ?length_fmap.
Qed.

Lemma hstack_cons (c c' : list float) (cs : list (list float))
    (rows : list (list float)) :
  Pantry.hstack (c' :: cs) = Pantry.Loaded rows ->
  length c = length rows ->
  Pantry.hstack (c :: c' :: cs) = Pantry.Loaded (zip_with cons c rows) /\
  length (zip_with cons c rows) = length c.
Proof.
  intros H L.
  change (Pantry.hstack (c :: c' :: cs))
    with (Pantry.andthen (Pantry.hstack (c' :: cs)) (fun rows =>
            if (length c =? length rows)%nat
            then Pantry.Loaded (zip_with cons c rows)
            else Pantry.Failed
                   (Pantry.ValueError "all the input array dimensions must match"))).
  rewrite H. cbn [Pantry.andthen].
  rewrite (proj2 (Nat.eqb_eq _ _) L). split; [reflexivity|].
  rewrite length_zip_with. lia.
Qed.

Lemma hstack_corners (a b : list float) :
  length a = length b ->
  Pantry.hstack [a; b; b; a]
  = Pantry.Loaded (zip_with (fun x y => [x; y; y; x]) a b) /\
  Pantry.hstack [a; a; b; b]
  = Pantry.Loaded (zip_with (fun x y => [x; x; y; y]) a b).
Proof.
  intros Hlen.
  assert (H1 : forall c : list float,
             Pantry.hstack [c] = Pantry.Loaded ((fun x => [x]) <$> c) /\
             length ((fun x => [x]) <$> c) = length c)
    by (intros; split; [reflexivity | apply length_fmap]).
  split.
  - destruct (H1 a) as (E1 & L1).
    destruct (hstack_cons b a [] _ E1 ltac:(lia)) as (E2 & L2).
    destruct (hstack_cons b b [a] _ E2 ltac:(lia)) as (E3 & L3).
    destruct (hstack_cons a b [b; a] _ E3 ltac:(lia)) as (E4 & _).
    rewrite E4. f_equal. clear -Hlen.
    revert b Hlen. induction a as [|x a IH]; intros [|y b] Hlen; cbn;
      try reflexivity; try discriminate. f_equal. apply IH. by injection Hlen.
  - destruct (H1 b) as (E1 & L1).
    destruct (hstack_cons b b [] _ E1 ltac:(lia)) as (E2 & L2).
    destruct (hstack_cons a b [b] _ E2 ltac:(lia)) as (E3 & L3).
    destruct (hstack_cons a a [b; b] _ E3 ltac:(lia)) as (E4 & _).
    rewrite E4. f_equal. clear -Hlen.
    revert b Hlen. induction a as [|x a IH]; intros [|y b] Hlen; cbn;
      try reflexivity; try discriminate. f_equal. apply IH. by injection Hlen.
Qed.

(** X9. Every cell that [smc_cells] builds is an axis-parallel rectangle
    listed corner by corner: the longitudes of cell [i] are west, east,
    east, west and its latitudes south, south, north, north. *)
Theorem smc_cells_rectangles (cc_lons cc_lats cx cy : list float)
    (base_lon_size base_lat_size : float)
    (lons lats : list (list float)) (i : nat) (lon_row lat_row : list float) :
  Pantry.smc_cells cc_lons cc_lats cx cy base_lon_size base_lat_size
  = Pantry.Loaded (lons, lats) ->
  lons !! i = Some lon_row ->
  lats !! i = Some lat_row ->
  exists x1 x2 y1 y2,
    lon_row = [x1; x2; x2; x1] /\ lat_row = [y1; y1; y2; y2].
Proof.
  unfold Pantry.smc_cells. intros H Hlon Hlat.
  destruct (Pantry.broadcast PrimFloat.sub cc_lons _) as [x1|] eqn:Ex1;
    cbn [Pantry.andthen] in H; [|discriminate].
  destruct (Pantry.broadcast PrimFloat.add cc_lons _) as [x2|] eqn:Ex2;
    cbn [Pantry.andthen] in H; [|discriminate].
  destruct (Pantry.broadcast PrimFloat.sub cc_lats _) as [y1|] eqn:Ey1;
    cbn [Pantry.andthen] in H; [|discriminate].
  destruct (Pantry.broadcast PrimFloat.add cc_lats _) as [y2|] eqn:Ey2;
    cbn [Pantry.andthen] in H; [|discriminate].
  pose proof (broadcast_length _ _ _ _ _ _ Ex1 Ex2) as Lx.
  pose proof (broadcast_length _ _ _ _ _ _ Ey1 Ey2) as Ly.
  rewrite (proj1 (hstack_corners x1 x2 Lx)) in H. cbn [Pantry.andthen] in H.
  rewrite (proj2 (hstack_corners y1 y2 Ly)) in H. cbn [Pantry.andthen] in H.
  injection H as <- <-.
  apply lookup_zip_with_Some in Hlon as (a & b & -> & _ & _).
  apply lookup_zip_with_Some in Hlat as (c & d & -> & _ & _).
  by exists a, b, c, d.
Qed.

(** X10. With as many cell centres as scaling factors, [smc_cells] does
    not raise and returns arrays of shape (n, 4): one row per cell in
    longitude and in latitude, each row of four corners. *)
Theorem smc_cells_shape (cc_lons cc_lats cx cy : list float)
    (base_lon_size base_lat_size : float) :
  length cc_lons = length cx ->
  length cc_lats = length cy ->
  exists lons lats,
    Pantry.smc_cells cc_lons cc_lats cx cy base_lon_size base_lat_size
    = Pantry.Loaded (lons, lats) /\
    length lons = length cx /\ length lats = length cy /\
    Forall (fun row => length row = 4%nat) lons /\
    Forall (fun row => length row = 4%nat) lats.
Proof.
  intros Hx Hy.
  set (half := fun (base : float) (d : list float) =>
                 PrimFloat.mul 0.5 <$> ((fun c => PrimFloat.mul c base) <$> d)).
  assert (Hhalf : forall base d, length (half base d) = length d)
    by (intros; unfold half; by rewrite !length_fmap).
  unfold Pantry.smc_cells. fold (half base_lon_size cx) (half base_lat_size cy).
  rewrite !broadcast_same_length by (rewrite Hhalf; assumption).
  cbn [Pantry.andthen].
  assert (Lx : length (zip_with PrimFloat.sub cc_lons (half base_lon_size cx))
               = length (zip_with PrimFloat.add cc_lons (half base_lon_size cx)))
    by (by rewrite !length_zip_with).
  assert (Ly : length (zip_with PrimFloat.sub cc_lats (half base_lat_size cy))
               = length (zip_with PrimFloat.add cc_lats (half base_lat_size cy)))
    by (by rewrite !length_zip_with).
  rewrite (proj1 (hstack_corners _ _ Lx)). cbn [Pantry.andthen].
  rewrite (proj2 (hstack_corners _ _ Ly)). cbn [Pantry.andthen].
  eexists _, _. split; [reflexivity|].
  rewrite !length_zip_with, !Hhalf.
  split; [lia|]. split; [lia|].
  split; apply Forall_forall; intros row Hrow;
    apply list_elem_of_lookup in Hrow as (i & Hi);
    apply lookup_zip_with_Some in Hi as (a & b & -> & _ & _); reflexivity.
Qed.

(** X11. [smc_cells] refuses centres and factors that differ in number,
    unless one of the two is a single value: numpy cannot broadcast them. *)
Theorem smc_cells_mismatch (cc_lons cc_lats cx cy : list float)
    (base_lon_size base_lat_size : float) :
  length cc_lons <> length cx ->
  length cc_lons <> 1%nat ->
  length cx <> 1%nat ->
  Pantry.smc_cells cc_lons cc_lats cx cy base_lon_size base_lat_size
  = Pantry.Failed (Pantry.ValueError "operands could not be broadcast together").
Proof.
  intros Hne Ha Hb. unfold Pantry.smc_cells, Pantry.broadcast at 1.
  rewrite !length_fmap.
  rewrite (proj2 (Nat.eqb_neq _ _) Hne).
  destruct cc_lons as [|x [|x' a]], cx as [|y [|y' b]]; cbn in *;
    try reflexivity; contradiction.
Qed.

(** * More of the engine *)

Lemma mask_select_sublist {A} (mask : list bool) (l : list A) :
  mask_select mask l `sublist_of` l.
Proof.
  revert l; induction mask as [|b mask IH]; intros [|x l]; cbn;
    try apply sublist_nil_l.
  destruct b; [apply sublist_skip | apply sublist_cons]; apply IH.
Qed.

(** Staging the seam value on the flagged points and turning everything
    else into the join value leaves the seam value exactly on the flagged
    points, when no staged identifier is the seam value itself. *)
Lemma stage_then_join (seam join : Z) (used : list bool) (bm vals : list Z) :
  length bm = length vals ->
  Forall (fun v => v <> seam) vals ->
  (fun x => if x =? seam then x else join)
    <$> mask_select used
          (zip_with (fun (b : bool) x => if b then seam else x) (as_bool bm) vals)
  = (fun v => if v =? 0 then join else seam) <$> mask_select used bm.
Proof.
  revert bm vals; induction used as [|u used IH]; intros [|v bm] [|x vals] L Hv;
    cbn in *; try reflexivity; try discriminate.
  injection L as L. apply Forall_cons in Hv as (Hx & Hv).
  specialize (IH bm vals L Hv). unfold as_bool in IH.
  destruct u; cbn; [|exact IH].
  f_equal; [|exact IH].
  destruct (v =? 0) eqn:E0; cbn.
  - destruct (x =? seam) eqn:Es; [lia | reflexivity].
  - by rewrite Z.eqb_refl.
Qed.

Lemma is_nan_ltb (d x : float) :
  PrimFloat.is_nan d = true ->
  PrimFloat.ltb d x = false /\ PrimFloat.ltb x d = false.
Proof.
  unfold PrimFloat.is_nan.
  rewrite FloatAxioms.eqb_spec, !FloatAxioms.ltb_spec.
  unfold SFeqb, SFltb.
  destruct (Prim2SF d) as [s | s | | s m e]; cbn.
  - discriminate.
  - destruct s; discriminate.
  - intros _. destruct (Prim2SF x); split; reflexivity.
  - rewrite Z.compare_refl, Pcompare_refl. destruct s; discriminate.
Qed.

Lemma mask_select_length_same {A B} (mask : list bool) (l1 : list A)
    (l2 : list B) :
  length l1 = length l2 ->
  length (mask_select mask l1) = length (mask_select mask l2).
Proof.
  revert l1 l2; induction mask as [|b mask IH]; intros [|x l1] [|y l2] L;
    cbn in *; try reflexivity; try discriminate.
  injection L as L. specialize (IH l1 l2 L). destruct b; cbn; lia.
Qed.

Lemma index_assign_where_ne_length (j s : Z) (a : list Z) :
  length (index_assign (where_ne a s) j a) = length a.
Proof. by rewrite index_assign_where_ne, length_fmap. Qed.

Section Engine.
Context `{Collab : Collaborators}.

(** What [split] stages and returns, in full. *)
Lemma split_Ok_exact (remeshed : Mesh) (meridian : float) (boundary : bool)
    (t : Mesh * Mesh * Mesh) :
  split remeshed meridian boundary = Ok t ->
  exists (bm ids aw ae : list Z),
    let base :=
      if negb boundary
      then delete VTK_BOUNDARY_MASK (point_data remeshed)
      else point_data remeshed in
    let a1 := zip_with (fun (b : bool) x => if b then REMESH_SEAM else x)
                       (as_bool bm) ids in
    let a2 := zip_with (fun (b : bool) x => if b then REMESH_SEAM_EAST else x)
                       (as_bool bm) a1 in
    let r1 := set_point_data (fun _ => <[GV_REMESH_POINT_IDS := a1]> base) remeshed in
    let r2 := set_point_data (fun _ => <[GV_REMESH_POINT_IDS := a2]> base) remeshed in
    let w0 := vtkGeometryFilter
                (extract_cells r1 (west_mask (cell_delta remeshed meridian))) in
    let e0 := vtkGeometryFilter
                (extract_cells r2 (east_mask (cell_delta remeshed meridian))) in
    point_data remeshed !! VTK_BOUNDARY_MASK = Some bm /\
    base !! GV_POINT_IDS = Some ids /\
    length bm = length ids /\
    point_data w0 !! GV_REMESH_POINT_IDS = Some aw /\
    point_data e0 !! GV_REMESH_POINT_IDS = Some ae /\
    t = sanitize_data
          (set_point_data (delete GV_REMESH_POINT_IDS) r2,
           set_point_data
             (insert GV_REMESH_POINT_IDS
                     (index_assign (where_ne aw REMESH_SEAM) REMESH_JOIN aw)) w0,
           set_point_data
             (insert GV_REMESH_POINT_IDS
                     (index_assign (where_ne ae REMESH_SEAM_EAST) REMESH_JOIN ae)) e0).
Proof.
  intros H.
  destruct (split_Ok _ _ _ _ H) as (bm & a1 & a2 & aw & ae & Hs).
  cbv zeta in Hs. destruct Hs as (Hbm & Haw & Hae & Ht).
  unfold split in H. unfold point_array at 1 in H.
  rewrite Hbm in H. cbn [rbind] in H.
  match type of H with rbind (point_array ?m _) _ = _ => set (r0 := m) in * end.
  unfold point_array at 1 in H.
  destruct (point_data r0 !! GV_POINT_IDS) as [ids|] eqn:Eids;
    cbn [rbind] in H; [|discriminate].
  assert (Hbase : (if negb boundary
                   then delete VTK_BOUNDARY_MASK (point_data remeshed)
                   else point_data remeshed) !! GV_POINT_IDS = Some ids).
  { subst r0. by destruct boundary. }
  unfold set_masked at 1, point_array at 1 in H.
  cbn [set_point_data point_data] in H.
  rewrite lookup_insert_eq in H. cbn [rbind] in H.
  unfold mask_assign at 1 in H.
  destruct (length (as_bool bm) =? length ids)%nat eqn:El;
    cbn [rbind] in H; [|discriminate].
  apply Nat.eqb_eq in El. unfold as_bool in El. rewrite length_fmap in El.
  rewrite cast_extract_cells in H. cbn [rbind] in H.
  match type of H with rbind ?c _ = _ => destruct c as [w1|] eqn:Ew end;
    cbn [rbind] in H; [|discriminate].
  unfold set_masked at 1, point_array at 1 in H.
  cbn [set_point_data point_data] in H.
  rewrite lookup_insert_eq in H. cbn [rbind] in H.
  unfold mask_assign at 1 in H.
  match type of H with
  | rbind (rbind (if ?c then _ else _) _) _ = _ =>
      destruct c; cbn [rbind] in H; [|discriminate]
  end.
  rewrite cast_extract_cells in H. cbn [rbind] in H.
  match type of H with rbind ?c _ = _ => destruct c as [e1|] eqn:Ee end;
    cbn [rbind] in H; [|discriminate].
  apply mark_join_Ok in Ew as (aw' & Eaw & ->).
  apply mark_join_Ok in Ee as (ae' & Eae & ->).
  injection H as <-.
  assert (Hr1 : forall a,
             set_point_data (insert GV_REMESH_POINT_IDS a)
               (set_point_data (insert GV_REMESH_POINT_IDS ids) r0)
             = set_point_data
                 (fun _ => <[GV_REMESH_POINT_IDS := a]>
                    (if negb boundary
                     then delete VTK_BOUNDARY_MASK (point_data remeshed)
                     else point_data remeshed)) remeshed).
  { intros a. subst r0. unfold set_point_data; destruct boundary; cbn;
      by rewrite insert_insert_eq. }
  assert (Hr2 : forall a a',
             set_point_data (insert GV_REMESH_POINT_IDS a')
               (set_point_data (insert GV_REMESH_POINT_IDS a)
                  (set_point_data (insert GV_REMESH_POINT_IDS ids) r0))
             = set_point_data
                 (fun _ => <[GV_REMESH_POINT_IDS := a']>
                    (if negb boundary
                     then delete VTK_BOUNDARY_MASK (point_data remeshed)
                     else point_data remeshed)) remeshed).
  { intros a a'. rewrite Hr1. unfold set_point_data; cbn.
    by rewrite insert_insert_eq. }
  rewrite Hr1 in Eaw. rewrite Hr2 in Eae.
  exists bm, ids, aw', ae'. cbv zeta.
  split; [exact Hbm|]. split; [exact Hbase|]. split; [exact El|].
  split; [exact Eaw|]. split; [exact Eae|].
  by rewrite Hr2, Hr1.
Qed.

(** X12. With warnings requested ([warnings] true) [remesh] leaves the
    global warning display as it found it, on every path. *)
Theorem remesh_keeps_display (mesh : Mesh) (meridian : float)
    (boundary check : bool) (w : World) :
  (remesh mesh meridian boundary check true w).1 = w.
Proof.
  rewrite remesh_unfold. by destruct (n_cells mesh =? 0)%nat.
Qed.

(** X15. When the boundary mask is kept ([boundary] true) and no point
    identifier of the intersected mesh is a seam sentinel, the marker of a
    point of west is [REMESH_SEAM] exactly where its boundary flag is set
    and [REMESH_JOIN] elsewhere, and likewise in east with
    [REMESH_SEAM_EAST]. *)
Theorem seam_points_exact (mesh : Mesh) (meridian : float)
    (check warnings : bool) (w w' : World) (r west east : Mesh) (ids : list Z) :
  sanitize_keeps_point_array GV_REMESH_POINT_IDS ->
  sanitize_keeps_point_array VTK_BOUNDARY_MASK ->
  GV_REMESH_POINT_IDS <> VTK_BOUNDARY_MASK ->
  GV_REMESH_POINT_IDS <> VTK_POINT_IDS ->
  n_cells (intersected mesh meridian check) <> 0%nat ->
  point_data (intersected mesh meridian check) !! GV_POINT_IDS = Some ids ->
  Forall (fun v => v <> REMESH_SEAM /\ v <> REMESH_SEAM_EAST) ids ->
  remesh mesh meridian true check warnings w = (w', Ok (r, west, east)) ->
  exists bw be,
    point_data west !! VTK_BOUNDARY_MASK = Some bw /\
    point_data east !! VTK_BOUNDARY_MASK = Some be /\
    point_data west !! GV_REMESH_POINT_IDS
    = Some ((fun v => if v =? 0 then REMESH_JOIN else REMESH_SEAM) <$> bw) /\
    point_data east !! GV_REMESH_POINT_IDS
    = Some ((fun v => if v =? 0 then REMESH_JOIN else REMESH_SEAM_EAST) <$> be).
Proof.
  intros Hgv Hbmk Hne Hnv Hn Hids Hall Hrun.
  apply (remesh_Ok_split _ _ _ _ _ _ _ _ Hn) in Hrun.
  set (im := intersected mesh meridian check) in *.
  apply split_Ok_exact in Hrun as (bm & ids' & aw & ae & Hs).
  cbv zeta in Hs. cbn [negb] in Hs.
  destruct Hs as (Hbm & Hids' & Hlen & Haw & Hae & Ht).
  rewrite Hids in Hids'. injection Hids' as <-.
  match type of Ht with _ = sanitize_data ?t => set (t0 := t) in * end.
  destruct (Hgv t0) as (_ & Hg2 & Hg3). destruct (Hbmk t0) as (_ & Hb2 & Hb3).
  rewrite <- Ht in Hg2, Hg3, Hb2, Hb3. subst t0.
  cbn [fst snd set_point_data point_data vtkGeometryFilter set_kind extract_cells]
    in Hg2, Hg3, Hb2, Hb3, Haw, Hae.
  assert (Hbv : VTK_BOUNDARY_MASK <> VTK_POINT_IDS) by discriminate.
  rewrite lookup_insert_eq in Hg2, Hg3.
  rewrite !lookup_insert_ne, lookup_fmap, lookup_insert_ne, Hbm in Hb2, Hb3
    by done.
  rewrite lookup_insert_ne, lookup_fmap, lookup_insert_eq in Haw, Hae by done.
  cbn [fmap option_fmap option_map] in Hb2, Hb3, Haw, Hae.
  injection Haw as <-. injection Hae as <-.
  eexists _, _. split; [exact Hb2|]. split; [exact Hb3|].
  rewrite Hg2, Hg3, !index_assign_where_ne.
  assert (L1 : length bm
               = length (zip_with (fun (b : bool) x => if b then REMESH_SEAM else x)
                                  (as_bool bm) ids)).
  { rewrite length_zip_with. unfold as_bool. rewrite length_fmap. lia. }
  split; f_equal.
  - apply stage_then_join; [exact Hlen|].
    eapply Forall_impl; [exact Hall|]. by intros v [? ?].
  - apply stage_then_join; [exact L1|].
    apply Forall_forall. intros v Hv.
    apply list_elem_of_lookup in Hv as (i & Hv).
    apply lookup_zip_with_Some in Hv as (b & x & -> & _ & Hx).
    destruct b; [unfold REMESH_SEAM_EAST; lia|].
    apply (proj1 (Forall_forall _ _) Hall x).
    by eapply list_elem_of_lookup_2.
Qed.

(** X16. Tagging changes nothing but the two provenance arrays: the kind,
    the points and the cells stay, every other cell and point array stays,
    and afterwards both provenance arrays are there. *)
Theorem tag_frame (m : Mesh) :
  kind (tag m) = kind m /\ points (tag m) = points m /\ cells (tag m) = cells m /\
  (forall name, name <> GV_CELL_IDS ->
                cell_data (tag m) !! name = cell_data m !! name) /\
  (forall name, name <> GV_POINT_IDS ->
                point_data (tag m) !! name = point_data m !! name) /\
  is_Some (cell_data (tag m) !! GV_CELL_IDS) /\
  is_Some (point_data (tag m) !! GV_POINT_IDS).
Proof.
  unfold tag, tag_points, tag_cells.
  destruct (cell_data m !! GV_CELL_IDS) as [ac|] eqn:Ec; cbn;
    destruct (point_data m !! GV_POINT_IDS) as [ap|] eqn:Ep; cbn;
    rewrite ?Ec, ?Ep, ?lookup_insert_eq;
    repeat split; eauto; intros name Hname; by rewrite lookup_insert_ne.
Qed.

(** X17. A cell whose [delta] is not a number is put in the east. *)
Theorem cell_classification_nan (remeshed : Mesh) (meridian : float) (i : nat)
    (lon : float) :
  to_xy0_lons (cell_centers remeshed) !! i = Some lon ->
  PrimFloat.is_nan (PrimFloat.sub lon meridian) = true ->
  west_mask (cell_delta remeshed meridian) !! i = Some false /\
  east_mask (cell_delta remeshed meridian) !! i = Some true.
Proof.
  intros Hlon Hnan.
  rewrite west_mask_classify, east_mask_classify, !list_lookup_fmap,
    cell_delta_lookup, Hlon.
  cbn [fmap option_fmap option_map]. unfold classify_west.
  destruct (is_nan_ltb _ 0%float Hnan) as (-> & _).
  destruct (is_nan_ltb _ 180%float Hnan) as (_ & ->).
  split; reflexivity.
Qed.

(** X18. The halves invent no data: every point array and every cell array
    that west or east carries, other than the staging array and VTK's
    helper arrays, is an order-preserving selection of the array of that
    name of the intersected mesh. *)
Theorem halves_carry_arrays (mesh : Mesh) (meridian : float)
    (boundary check warnings : bool) (w w' : World) (r west east : Mesh)
    (name : string) :
  sanitize_keeps_point_array name ->
  sanitize_keeps_cell_array name ->
  name <> GV_REMESH_POINT_IDS ->
  name <> VTK_POINT_IDS ->
  name <> VTK_CELL_IDS ->
  n_cells (intersected mesh meridian check) <> 0%nat ->
  remesh mesh meridian boundary check warnings w = (w', Ok (r, west, east)) ->
  (forall half a, half = west \/ half = east ->
     point_data half !! name = Some a ->
     exists a0, point_data (intersected mesh meridian check) !! name = Some a0 /\
                a `sublist_of` a0) /\
  (forall half a, half = west \/ half = east ->
     cell_data half !! name = Some a ->
     exists a0, cell_data (intersected mesh meridian check) !! name = Some a0 /\
                a `sublist_of` a0).
Proof.
  intros Hp Hc Hng Hnp Hnc Hn Hrun.
  apply (remesh_Ok_split _ _ _ _ _ _ _ _ Hn) in Hrun.
  set (im := intersected mesh meridian check) in *.
  apply split_Ok in Hrun as (bm & a1 & a2 & aw & ae & Hs).
  cbv zeta in Hs. destruct Hs as (_ & _ & _ & Ht).
  match type of Ht with _ = sanitize_data ?t => set (t0 := t) in * end.
  destruct (Hp t0) as (_ & Hp2 & Hp3). destruct (Hc t0) as (_ & Hc2 & Hc3).
  rewrite <- Ht in Hp2, Hp3, Hc2, Hc3. subst t0.
  cbn [fst snd set_point_data point_data cell_data vtkGeometryFilter set_kind
       extract_cells] in Hp2, Hp3, Hc2, Hc3.
  rewrite !lookup_insert_ne, lookup_fmap, lookup_insert_ne in Hp2, Hp3 by done.
  rewrite lookup_insert_ne, lookup_fmap in Hc2, Hc3 by done.
  assert (Hbase : forall a0,
             (if negb boundary
              then delete VTK_BOUNDARY_MASK (point_data im)
              else point_data im) !! name = Some a0 ->
             point_data im !! name = Some a0).
  { intros a0. destruct boundary; cbn [negb]; [done|].
    intros H. by apply lookup_delete_Some in H as (_ & H). }
  split; intros half a [-> | ->] Ha.
  - rewrite Hp2 in Ha.
    destruct (_ !! name) as [a0|] eqn:E0 in Ha; [|discriminate].
    injection Ha as <-. exists a0. split; [by apply Hbase|].
    apply mask_select_sublist.
  - rewrite Hp3 in Ha.
    destruct (_ !! name) as [a0|] eqn:E0 in Ha; [|discriminate].
    injection Ha as <-. exists a0. split; [by apply Hbase|].
    apply mask_select_sublist.
  - rewrite Hc2 in Ha.
    destruct (cell_data im !! name) as [a0|] eqn:E0; [|discriminate].
    injection Ha as <-. exists a0. split; [done | apply mask_select_sublist].
  - rewrite Hc3 in Ha.
    destruct (cell_data im !! name) as [a0|] eqn:E0; [|discriminate].
    injection Ha as <-. exists a0. split; [done | apply mask_select_sublist].
Qed.

(** X19. The remeshed output is the intersected mesh but for the two arrays
    [remesh] manages: it has the cells of the intersected mesh, and every
    point array other than the boundary mask and the staging array, and
    every cell array, is the one of the intersected mesh. *)
Theorem remeshed_frame (mesh : Mesh) (meridian : float)
    (boundary check warnings : bool) (w w' : World) (r west east : Mesh)
    (name : string) :
  sanitize_keeps_cells ->
  sanitize_keeps_point_array name ->
  sanitize_keeps_cell_array name ->
  n_cells (intersected mesh meridian check) <> 0%nat ->
  remesh mesh meridian boundary check warnings w = (w', Ok (r, west, east)) ->
  cells r = cells (intersected mesh meridian check) /\
  cell_data r !! name = cell_data (intersected mesh meridian check) !! name /\
  (name <> VTK_BOUNDARY_MASK -> name <> GV_REMESH_POINT_IDS ->
   point_data r !! name = point_data (intersected mesh meridian check) !! name).
Proof.
  intros Hcells Hp Hc Hn Hrun.
  apply (remesh_Ok_split _ _ _ _ _ _ _ _ Hn) in Hrun.
  set (im := intersected mesh meridian check) in *.
  apply split_Ok in Hrun as (bm & a1 & a2 & aw & ae & Hs).
  cbv zeta in Hs. destruct Hs as (_ & _ & _ & Ht).
  match type of Ht with _ = sanitize_data ?t => set (t0 := t) in * end.
  destruct (Hcells t0) as (Hc1 & _). destruct (Hp t0) as (Hp1 & _).
  destruct (Hc t0) as (Hd1 & _).
  rewrite <- Ht in Hc1, Hp1, Hd1. subst t0.
  cbn [fst snd set_point_data point_data cell_data cells] in Hc1, Hp1, Hd1.
  split; [exact Hc1|]. split; [exact Hd1|].
  intros Hnb Hng. rewrite Hp1, lookup_delete_ne, lookup_insert_ne by done.
  destruct boundary; cbn [negb]; [done|]. by rewrite lookup_delete_ne.
Qed.

(** The marker array of a half, as extracted, has one entry per point of
    the half when the staged array has one entry per point of the mesh. *)
Lemma extract_cells_marker_length (m : Mesh) (mask : list bool) (a aw : list Z) :
  point_data m !! GV_REMESH_POINT_IDS = Some a ->
  length a = n_points m ->
  point_data (vtkGeometryFilter (extract_cells m mask)) !! GV_REMESH_POINT_IDS
  = Some aw ->
  length aw = n_points (vtkGeometryFilter (extract_cells m mask)).
Proof.
  intros Ha La Haw. unfold n_points in *. cbn in Haw |- *.
  destruct (decide (GV_REMESH_POINT_IDS = VTK_POINT_IDS)) as [E | E].
  - rewrite E, lookup_insert_eq in Haw. injection Haw as <-.
    apply mask_select_length_same. apply arange_length.
  - rewrite lookup_insert_ne, lookup_fmap, Ha in Haw by done.
    injection Haw as <-. by apply mask_select_length_same.
Qed.

(** C4. After [remesh] on an intersecting input every point of west and
    every point of east has a marker: the marker array of a half has one
    entry per point of the half.  Every point of west is marked
    [REMESH_SEAM] or [REMESH_JOIN] and every point of east
    [REMESH_SEAM_EAST] or [REMESH_JOIN]; the three sentinels being distinct,
    no point of west carries [REMESH_SEAM_EAST] and no point of east
    carries [REMESH_SEAM]. *)
Theorem seam_markers (mesh : Mesh) (meridian : float)
    (boundary check warnings : bool) (w w' : World) (r west east : Mesh) :
  sanitize_keeps_point_array GV_REMESH_POINT_IDS ->
  sanitize_keeps_points ->
  REMESH_JOIN <> REMESH_SEAM ->
  REMESH_JOIN <> REMESH_SEAM_EAST ->
  n_cells (intersected mesh meridian check) <> 0%nat ->
  (forall bm,
     point_data (intersected mesh meridian check) !! VTK_BOUNDARY_MASK = Some bm ->
     length bm = n_points (intersected mesh meridian check)) ->
  remesh mesh meridian boundary check warnings w = (w', Ok (r, west, east)) ->
  exists aw ae,
    point_data west !! GV_REMESH_POINT_IDS = Some aw /\
    point_data east !! GV_REMESH_POINT_IDS = Some ae /\
    length aw = n_points west /\
    length ae = n_points east /\
    (forall p, (p < n_points west)%nat ->
       exists v, aw !! p = Some v /\
                 (v = REMESH_SEAM \/ v = REMESH_JOIN) /\ v <> REMESH_SEAM_EAST) /\
    (forall p, (p < n_points east)%nat ->
       exists v, ae !! p = Some v /\
                 (v = REMESH_SEAM_EAST \/ v = REMESH_JOIN) /\ v <> REMESH_SEAM) /\
    Forall (fun v => v = REMESH_SEAM \/ v = REMESH_JOIN) aw /\
    Forall (fun v => v = REMESH_SEAM_EAST \/ v = REMESH_JOIN) ae /\
    Forall (fun v => v <> REMESH_SEAM_EAST) aw /\
    Forall (fun v => v <> REMESH_SEAM) ae.
Proof.
  intros Harr Hpts Hjs Hje Hn Hwf Hrun.
  apply (remesh_Ok_split _ _ _ _ _ _ _ _ Hn) in Hrun.
  set (im := intersected mesh meridian check) in *.
  apply split_Ok_exact in Hrun as (bm & ids & aw & ae & Hs).
  cbv zeta in Hs. destruct Hs as (Hbm & Hids & Hlen & Haw & Hae & Ht).
  specialize (Hwf bm Hbm).
  match type of Ht with _ = sanitize_data ?t => set (t0 := t) in * end.
  destruct (Harr t0) as (_ & Hd2 & Hd3). destruct (Hpts t0) as (_ & Hp2 & Hp3).
  rewrite <- Ht in Hd2, Hd3, Hp2, Hp3. subst t0.
  cbn [fst snd] in Hd2, Hd3, Hp2, Hp3.
  assert (Lmask : length (as_bool bm) = length bm)
    by (unfold as_bool; apply length_fmap).
  apply extract_cells_marker_length
    with (a := zip_with (fun (b : bool) x => if b then REMESH_SEAM else x)
                        (as_bool bm) ids) in Haw;
    [| cbn; by rewrite lookup_insert_eq
     | unfold n_points; cbn; rewrite length_zip_with;
       unfold n_points in Hwf; lia ].
  apply extract_cells_marker_length
    with (a := zip_with (fun (b : bool) x => if b then REMESH_SEAM_EAST else x)
                        (as_bool bm)
                        (zip_with (fun (b : bool) x => if b then REMESH_SEAM else x)
                                  (as_bool bm) ids)) in Hae;
    [| cbn; by rewrite lookup_insert_eq
     | unfold n_points; cbn; rewrite !length_zip_with;
       unfold n_points in Hwf; lia ].
  cbn [set_point_data point_data] in Hd2, Hd3.
  rewrite lookup_insert_eq in Hd2, Hd3.
  pose proof (index_assign_where_ne_values REMESH_JOIN REMESH_SEAM aw) as Hw.
  pose proof (index_assign_where_ne_values REMESH_JOIN REMESH_SEAM_EAST ae) as He.
  assert (Hnw : Forall (fun v => v <> REMESH_SEAM_EAST)
                  (index_assign (where_ne aw REMESH_SEAM) REMESH_JOIN aw)).
  { eapply Forall_impl; [exact Hw|]. cbn. unfold REMESH_SEAM_EAST in *.
    intros v [-> | ->]; [lia | done]. }
  assert (Hne : Forall (fun v => v <> REMESH_SEAM)
                  (index_assign (where_ne ae REMESH_SEAM_EAST) REMESH_JOIN ae)).
  { eapply Forall_impl; [exact He|]. cbn. unfold REMESH_SEAM_EAST in *.
    intros v [-> | ->]; [lia | done]. }
  assert (Lw : length (index_assign (where_ne aw REMESH_SEAM) REMESH_JOIN aw)
               = n_points west).
  { rewrite index_assign_where_ne_length, Haw. unfold n_points.
    by rewrite Hp2. }
  assert (Le : length (index_assign (where_ne ae REMESH_SEAM_EAST) REMESH_JOIN ae)
               = n_points east).
  { rewrite index_assign_where_ne_length, Hae. unfold n_points.
    by rewrite Hp3. }
  eexists _, _. split; [exact Hd2|]. split; [exact Hd3|].
  split; [exact Lw|]. split; [exact Le|].
  split; [|split; [|by repeat split]].
  - intros p Hp. rewrite <- Lw in Hp.
    destruct (lookup_lt_is_Some_2 _ _ Hp) as (v & Hv).
    exists v. split; [exact Hv|]. split.
    + exact (proj1 (Forall_lookup _ _) Hw p v Hv).
    + exact (proj1 (Forall_lookup _ _) Hnw p v Hv).
  - intros p Hp. rewrite <- Le in Hp.
    destruct (lookup_lt_is_Some_2 _ _ Hp) as (v & Hv).
    exists v. split; [exact Hv|]. split.
    + exact (proj1 (Forall_lookup _ _) He p v Hv).
    + exact (proj1 (Forall_lookup _ _) Hne p v Hv).
Qed.

End Engine.

(** * [remesh] when its collaborators may raise *)

Section StrictProperties.
Context `{Collab : Collaborators} `{Geo : Strict.Geometry}.

Lemma strict_remesh_unfold (mesh : Mesh) (meridian : float)
    (boundary check warnings : bool) (w : World) :
  Strict.remesh mesh meridian boundary check warnings w
  = if (n_cells mesh =? 0)%nat
    then (if warnings then w else mkWorld false,
          Raise (ValueError "Cannot remesh an empty mesh"))
    else
      match Strict.intersected mesh meridian check with
      | Raise e => (if warnings then w else mkWorld false, Raise e)
      | Ok cut =>
          (if warnings then w else mkWorld true,
           if (n_cells cut.2 =? 0)%nat
           then Ok (cut.2, empty_PolyData, empty_PolyData)
           else split cut.2 cut.1 boundary)
      end.
Proof.
  unfold Strict.remesh, bind, when, ret, raise, lift,
    GlobalWarningDisplayOff, GlobalWarningDisplayOn.
  destruct warnings; cbn [negb];
    destruct (n_cells mesh =? 0)%nat; try reflexivity;
    destruct (Strict.intersected mesh meridian check) as [cut|e];
    try reflexivity;
    destruct (n_cells cut.2 =? 0)%nat; reflexivity.
Qed.

(** C8, as amended. The cutting-surface builder has no failure mode of its
    own and does not reject a radius less than or equal to zero: for every
    radius it calls [pv.Plane] with centre (radius/2, 0, 0), sizes radius
    and 2*radius and direction (0, 1, 0), rotates by the meridian and
    triangulates.  It returns the patch exactly when these three calls
    return, and an exception it raises is the exception one of them
    raised. *)
Theorem cutting_surface_no_radius_check (radius meridian : float) :
  let plane_call :=
    Strict.Plane ((radius / 2)%float, 0%float, 0%float) 1 1
                 radius (radius * 2)%float (0%float, 1%float, 0%float) in
  match Strict.cutting_surface radius meridian with
  | Ok patch =>
      exists plane rotated,
        plane_call = Ok plane /\
        Strict.rotate_z meridian plane = Ok rotated /\
        Strict.triangulate rotated = Ok patch
  | Raise e =>
      plane_call = Raise e \/
      (exists plane,
         plane_call = Ok plane /\ Strict.rotate_z meridian plane = Raise e) \/
      (exists plane rotated,
         plane_call = Ok plane /\
         Strict.rotate_z meridian plane = Ok rotated /\
         Strict.triangulate rotated = Raise e)
  end /\
  (forall plane rotated patch,
     plane_call = Ok plane ->
     Strict.rotate_z meridian plane = Ok rotated ->
     Strict.triangulate rotated = Ok patch ->
     Strict.cutting_surface radius meridian = Ok patch).
Proof.
  cbv zeta. unfold Strict.cutting_surface, Strict.plane_call. split.
  - destruct (Strict.Plane _ 1 1 radius _ _) as [plane|e]; cbn [rbind];
      [|by left].
    destruct (Strict.rotate_z meridian plane) as [rotated|e] eqn:Er;
      cbn [rbind]; [|right; left; eauto].
    destruct (Strict.triangulate rotated) as [patch|e] eqn:Et.
    + by exists plane, rotated.
    + right; right. by exists plane, rotated.
  - intros plane rotated patch -> Hr Ht. cbn [rbind]. rewrite Hr. cbn [rbind].
    exact Ht.
Qed.

(** X13. With warnings suppressed, [remesh] on a mesh with cells ends with
    the global warning display switched on when the calls of lines 105-161
    all return, whether the split then returns or raises and whatever the
    display was before the call; when one of those calls raises, its
    exception leaves [remesh] with the display switched off. *)
Theorem remesh_display_after (mesh : Mesh) (meridian : float)
    (boundary check : bool) (w : World) :
  n_cells mesh <> 0%nat ->
  match Strict.intersected mesh meridian check with
  | Ok _ =>
      (Strict.remesh mesh meridian boundary check false w).1 = mkWorld true
  | Raise e =>
      Strict.remesh mesh meridian boundary check false w
      = (mkWorld false, Raise e)
  end.
Proof.
  intros Hm. rewrite strict_remesh_unfold.
  rewrite (proj2 (Nat.eqb_neq _ _) Hm).
  by destruct (Strict.intersected mesh meridian check).
Qed.

End StrictProperties.

(** With collaborators that return, the two embeddings of [remesh] agree. *)
Lemma strict_remesh_returning (C : Collaborators) (mesh : Mesh)
    (meridian : float) (boundary check warnings : bool) (w : World) :
  @Strict.remesh C (returning C) mesh meridian boundary check warnings w
  = @remesh C mesh meridian boundary check warnings w.
Proof.
  rewrite strict_remesh_unfold, remesh_unfold.
  destruct (n_cells mesh =? 0)%nat; [reflexivity|].
  unfold Strict.intersected, Strict.prepare, Strict.cutting_surface,
    Strict.plane_call, returning. cbn [rbind Strict.wrap Strict.calculate_radius
    Strict.triangulated Strict.triangulate Strict.Plane Strict.rotate_z
    Strict.vtkIntersectionPolyDataFilter].
  change (tag mesh) with (@tag C mesh).
  destruct (@triangulated C (@tag C mesh)) eqn:Et; cbn [rbind fst snd].
  - unfold intersected, prepare, cutting_surface. rewrite Et. reflexivity.
  - unfold intersected, prepare, cutting_surface. rewrite Et. reflexivity.
Qed.

(** * The properties above at concrete inputs *)

Lemma capitalise_length_witness :
  Pantry.capitalise "sea_surface_TEMPERATURE" = "Sea Surface Temperature" /\
  String.length (Pantry.capitalise "sea_surface_TEMPERATURE")
  = String.length "sea_surface_TEMPERATURE".
Proof.
  split; [reflexivity|].
  apply (capitalise_length "sea_surface_TEMPERATURE"). reflexivity.
Defined.

Lemma capitalise_blanks_witness :
  String.get 3 "sea_surface_TEMPERATURE" = Some "_"%char /\
  String.get 3 (Pantry.capitalise "sea_surface_TEMPERATURE") = Some " "%char.
Proof.
  split; [reflexivity|].
  apply (proj1 (capitalise_blanks "sea_surface_TEMPERATURE" 3 eq_refl)).
  right. reflexivity.
Defined.

Lemma capitalise_idempotent_witness :
  Pantry.capitalise (Pantry.capitalise "sea_surface_TEMPERATURE")
  = Pantry.capitalise "sea_surface_TEMPERATURE".
Proof.
  apply (capitalise_idempotent "sea_surface_TEMPERATURE"). reflexivity.
Defined.

Lemma capitalise_word_case_witness :
  String.get 4 (Pantry.capitalise "sea_surface_TEMPERATURE") = Some "S"%char /\
  Pantry.is_lower "S" = false /\
  String.get 5 (Pantry.capitalise "sea_surface_TEMPERATURE") = Some "u"%char /\
  Pantry.is_upper "u" = false.
Proof.
  split; [reflexivity|]. split.
  - exact (capitalise_word_case "sea_surface_TEMPERATURE" 4 "S" eq_refl eq_refl).
  - split; [reflexivity|].
    exact (capitalise_word_case "sea_surface_TEMPERATURE" 5 "u" eq_refl eq_refl).
Defined.

Lemma capitalise_same_letters_witness :
  Pantry.str_map Pantry.lower (Pantry.capitalise "sea_surface_TEMPERATURE")
  = "sea surface temperature".
Proof.
  rewrite (capitalise_same_letters "sea_surface_TEMPERATURE" eq_refl).
  reflexivity.
Defined.

Lemma fesom_periodic_witness :
  Pantry.fesom (PantryLab.fetch 2) (Some (-1))
  = Pantry.fesom (PantryLab.fetch 2) (Some 1).
Proof.
  exact (fesom_periodic (PantryLab.fetch 2) (PantryLab.dataset 2) 2 1 (-1)
           eq_refl eq_refl).
Defined.

Lemma fesom_loads_witness :
  exists row,
    Pantry.getitem (Pantry.value PantryLab.tos) 1 = Pantry.Loaded row /\
    Pantry.shape row = [3%nat] /\
    Pantry.fesom (PantryLab.fetch 2) (Some (-1))
    = Pantry.Loaded
        (Pantry.mkSampleUnstructuredXY
           (Pantry.value PantryLab.lon_bnds) (Pantry.value PantryLab.lat_bnds)
           (Pantry.ConnShape [3; 3]%nat) (Some row) None None None
           (Some "Sea Surface Temperature") (Some (Pantry.AttrStr "degC"))
           (Some 2%nat) 2).
Proof.
  exact (fesom_loads (PantryLab.fetch 2) (PantryLab.dataset 2)
           PantryLab.lon_bnds PantryLab.lat_bnds PantryLab.tos
           "sea_surface_temperature" (Pantry.AttrStr "degC") 2 [3%nat]
           (Some (-1)) eq_refl eq_refl eq_refl eq_refl eq_refl eq_refl eq_refl
           (Nat.lt_0_succ 1) eq_refl).
Defined.

Lemma fesom_empty_time_witness :
  Pantry.fesom (PantryLab.fetch 0) (Some 3)
  = Pantry.Failed Pantry.ZeroDivisionError.
Proof.
  exact (fesom_empty_time (PantryLab.fetch 0) (PantryLab.dataset 0)
           PantryLab.lon_bnds PantryLab.lat_bnds PantryLab.tos
           "sea_surface_temperature" (Pantry.AttrStr "degC") 3
           eq_refl eq_refl eq_refl eq_refl eq_refl eq_refl eq_refl).
Defined.

Lemma smc_cells_rectangles_witness :
  exists lons lats x1 x2 y1 y2,
    Pantry.smc_cells [10; 20]%float [1; 2]%float [2; 4]%float [1; 1]%float
      0.5%float 0.25%float
    = Pantry.Loaded (lons, lats) /\
    lons !! 1%nat = Some [x1; x2; x2; x1] /\
    lats !! 1%nat = Some [y1; y1; y2; y2].
Proof.
  destruct (smc_cells_rectangles [10; 20]%float [1; 2]%float [2; 4]%float
              [1; 1]%float 0.5%float 0.25%float
              [[9.5; 10.5; 10.5; 9.5]; [19; 21; 21; 19]]%float
              [[0.875; 0.875; 1.125; 1.125]; [1.875; 1.875; 2.125; 2.125]]%float
              1%nat [19; 21; 21; 19]%float [1.875; 1.875; 2.125; 2.125]%float
              eq_refl eq_refl eq_refl)
    as (x1 & x2 & y1 & y2 & Hx & Hy).
  eexists _, _, x1, x2, y1, y2. split; [reflexivity|].
  rewrite <- Hx, <- Hy. split; reflexivity.
Defined.

Lemma smc_cells_mismatch_witness :
  Pantry.smc_cells [10; 20]%float [1; 2]%float [2; 4; 8]%float [1; 1]%float
    0.5%float 0.25%float
  = Pantry.Failed (Pantry.ValueError "operands could not be broadcast together").
Proof.
  apply (smc_cells_mismatch [10; 20]%float [1; 2]%float [2; 4; 8]%float
           [1; 1]%float 0.5%float 0.25%float); discriminate.
Defined.

Lemma seam_points_exact_witness :
  exists r west east,
    (remesh Lab.crossing 0%float true false false Lab.world0).2
    = Ok (r, west, east) /\
    exists bw,
      point_data west !! VTK_BOUNDARY_MASK = Some bw /\
      point_data west !! GV_REMESH_POINT_IDS
      = Some ((fun v => if v =? 0 then REMESH_JOIN else REMESH_SEAM) <$> bw).
Proof.
  destruct (remesh Lab.crossing 0%float true false false Lab.world0)
    as [w' [[[r west] east] | e]] eqn:E.
  - destruct (seam_points_exact Lab.crossing 0%float false false
                Lab.world0 w' r west east [0; 1; 2; 0])
      as (bw & be & Hbw & _ & Hw & _).
    + apply lab_keeps_point_array. discriminate.
    + apply lab_keeps_point_array. discriminate.
    + discriminate.
    + discriminate.
    + discriminate.
    + vm_compute. reflexivity.
    + repeat (constructor; [split; discriminate|]). constructor.
    + exact E.
    + exists r, west, east. split; [reflexivity|]. by exists bw.
  - vm_compute in E. discriminate.
Defined.

Lemma cell_classification_nan_witness :
  PrimFloat.is_nan (PrimFloat.sub (-45)%float PrimFloat.nan) = true /\
  east_mask (cell_delta (Lab.crossing_split Lab.crossing) PrimFloat.nan) !! 0%nat
  = Some true.
Proof.
  split; [reflexivity|].
  apply (cell_classification_nan (Lab.crossing_split Lab.crossing)
           PrimFloat.nan 0%nat (-45)%float); reflexivity.
Defined.

Lemma halves_carry_arrays_witness :
  exists r west east,
    (remesh Lab.crossing 0%float false false false Lab.world0).2
    = Ok (r, west, east) /\
    forall a, point_data west !! "gvOriginalPointIds" = Some a ->
      exists a0,
        point_data (intersected Lab.crossing 0%float false)
          !! "gvOriginalPointIds" = Some a0 /\ a `sublist_of` a0.
Proof.
  destruct (remesh Lab.crossing 0%float false false false Lab.world0)
    as [w' [[[r west] east] | e]] eqn:E.
  - destruct (halves_carry_arrays Lab.crossing 0%float false false false
                Lab.world0 w' r west east "gvOriginalPointIds") as (Hp & _).
    + apply lab_keeps_point_array. discriminate.
    + apply lab_keeps_cell_array. discriminate.
    + discriminate.
    + discriminate.
    + discriminate.
    + discriminate.
    + exact E.
    + exists r, west, east. split; [reflexivity|].
      intros a Ha. apply (Hp west a); [by left | exact Ha].
  - vm_compute in E. discriminate.
Defined.

Lemma remeshed_frame_witness :
  exists r west east,
    (remesh Lab.crossing 0%float false false false Lab.world0).2
    = Ok (r, west, east) /\
    cells r = cells (intersected Lab.crossing 0%float false) /\
    point_data r !! "gvOriginalPointIds"
    = point_data (intersected Lab.crossing 0%float false) !! "gvOriginalPointIds".
Proof.
  destruct (remesh Lab.crossing 0%float false false false Lab.world0)
    as [w' [[[r west] east] | e]] eqn:E.
  - destruct (remeshed_frame Lab.crossing 0%float false false false
                Lab.world0 w' r west east "gvOriginalPointIds")
      as (Hc & _ & Hp).
    + exact lab_keeps_cells.
    + apply lab_keeps_point_array. discriminate.
    + apply lab_keeps_cell_array. discriminate.
    + discriminate.
    + exact E.
    + exists r, west, east. split; [reflexivity|]. split; [exact Hc|].
      apply Hp; discriminate.
  - vm_compute in E. discriminate.
Defined.

Lemma lab_keeps_points : @sanitize_keeps_points Lab.collaborators.
Proof. intros [[r w] e]. cbn. done. Qed.

Lemma seam_markers_witness :
  exists r west east aw ae,
    (remesh Lab.crossing 0%float false false false Lab.world0).2
    = Ok (r, west, east) /\
    point_data west !! GV_REMESH_POINT_IDS = Some aw /\
    point_data east !! GV_REMESH_POINT_IDS = Some ae /\
    length aw = n_points west /\
    length ae = n_points east /\
    Forall (fun v => v <> REMESH_SEAM_EAST) aw /\
    Forall (fun v => v <> REMESH_SEAM) ae.
Proof.
  destruct (remesh Lab.crossing 0%float false false false Lab.world0)
    as [w' [[[r west] east] | e]] eqn:E.
  - destruct (seam_markers Lab.crossing 0%float false false false
                Lab.world0 w' r west east)
      as (aw & ae & Hw & He & Lw & Le & _ & _ & _ & _ & Hnw & Hne).
    + apply lab_keeps_point_array. discriminate.
    + exact lab_keeps_points.
    + discriminate.
    + discriminate.
    + discriminate.
    + intros bm H. vm_compute in H. injection H as <-. reflexivity.
    + exact E.
    + exists r, west, east, aw, ae. done.
  - vm_compute in E. discriminate.
Defined.

Lemma cutting_surface_no_radius_check_witness :
  exists patch,
    @Strict.cutting_surface lab_geometry 0%float 0%float = Ok patch /\
    n_cells patch = 2%nat.
Proof.
  eexists. split.
  - eapply (proj2 (@cutting_surface_no_radius_check lab_geometry 0%float 0%float));
      reflexivity.
  - reflexivity.
Defined.

Lemma remesh_display_after_witness :
  @Strict.remesh Lab.collaborators lab_geometry Lab.crossing PrimFloat.nan
    false false false (mkWorld true)
  = (mkWorld false, Raise (ValueError "angle is not a number")) /\
  (@Strict.remesh Lab.collaborators lab_geometry Lab.crossing 0%float
     false false false (mkWorld false)).1
  = mkWorld true.
Proof.
  split.
  - pose proof (@remesh_display_after Lab.collaborators lab_geometry
                  Lab.crossing PrimFloat.nan false false (mkWorld true)
                  ltac:(discriminate)) as H.
    vm_compute in H. vm_compute. exact H.
  - pose proof (@remesh_display_after Lab.collaborators lab_geometry
                  Lab.crossing 0%float false false (mkWorld false)
                  ltac:(discriminate)) as H.
    vm_compute in H. vm_compute. exact H.
Defined.

Lemma smc_cells_shape_witness :
  exists lons lats,
    Pantry.smc_cells [10; 20]%float [1; 2]%float [2; 4]%float [1; 1]%float
      0.5%float 0.25%float
    = Pantry.Loaded (lons, lats) /\
    length lons = 2%nat /\ length lats = 2%nat.
Proof.
  destruct (smc_cells_shape [10; 20]%float [1; 2]%float [2; 4]%float
              [1; 1]%float 0.5%float 0.25%float eq_refl eq_refl)
    as (lons & lats & H & Lx & Ly & _).
  by exists lons, lats.
Defined.
